(** * MultiQC: [multiqc/core/update_config.py]

    A shallow embedding of [ClConfig] and [update_config], the function that
    re-resolves the process-wide configuration (the attributes of the
    [multiqc.config] module) from the built-in defaults, the user's config
    files and the command-line / interactive overrides.

    - The override object [ClConfig] is a record of optional fields.
    - The [config] module namespace is a total, typed environment indexed
      by attribute name ([config.attr]); [config.x = v] is [setattr].
    - Statements of [update_config] are state transformers on a [World]
      (the [config] attributes, the two [report] attributes the function
      assigns, and the trace of calls made to collaborators); the single
      [raise] is modelled with an error result that keeps the partially
      updated world, as a Python exception does.
    - Lists are values: [l.extend(x)] and [l.append(x)] on an attribute are
      assignments of the longer list.  The function itself never makes two
      of the attributes it later extends share one list object.
    - Collaborators ([config.find_user_files], [config.load_config_file],
      ...) are total functions here; an exception of theirs would leave
      [update_config] before any of its later statements. *)

From Stdlib Require Import List String Ascii Bool ZArith Lia Eqdep_dec.
Import ListNotations.
Local Open Scope string_scope.
Local Open Scope list_scope.

Set Implicit Arguments.

(** ** Python values that are not given a precise type by the source *)

(** Untyped Python data ([List], [Dict], YAML values). *)
#[warnings="-register-all"]
Inductive pyval : Type :=
| PNone
| PBool (b : bool)
| PInt (z : Z)
| PStr (s : string)
| PList (l : list pyval)
| PDict (d : list (string * pyval)).

(** A Python [dict] with string keys, in insertion order. *)
Definition pydict : Type := list (string * pyval).

(** [Union[bool, List[str]]], the type of [use_filename_as_sample_name]. *)
Inductive bool_or_list : Type :=
| UBool (b : bool)
| UList (l : list string).

(** [Union[str, Dict]], the type of the entries of [module_order]. *)
Inductive mod_entry : Type :=
| MStr (m : string)
| MDict (d : pydict).

(** Modelled from the spec: [AiProviderLiteral] is declared in
    [multiqc.utils.config_schema]; the spec describes it as an "enumerated
    string (closed set of provider names)", so a provider is kept as its
    name. *)
Definition AiProviderLiteral : Type := string.

(** Python truthiness of the values tested with a bare [if x:]. *)
Definition truthy_bool (o : option bool) : bool :=
  match o with Some true => true | _ => false end.

Definition truthy_str (o : option string) : bool :=
  match o with
  | Some s => negb (String.eqb s EmptyString)
  | None => false
  end.

Definition truthy_list {A} (l : list A) : bool :=
  match l with [] => false | _ :: _ => true end.

Definition truthy_bool_or_list (u : bool_or_list) : bool :=
  match u with
  | UBool b => b
  | UList l => truthy_list l
  end.

Definition truthy_dict (o : option pydict) : bool :=
  match o with
  | Some d => truthy_list d
  | None => false
  end.

(** [x is not None] *)
Definition is_not_None {A} (o : option A) : bool :=
  match o with Some _ => true | None => false end.

(** ** [class ClConfig(BaseModel)] *)

Module ClConfig.

Record t : Type := mk {
  file_list : option bool;
  prepend_dirs : option bool;
  dirs_depth : option Z;
  fn_clean_sample_names : option bool;
  title : option string;
  report_comment : option string;
  template : option string;
  require_logs : option bool;
  output_dir : option string;
  use_filename_as_sample_name : option bool_or_list;
  replace_names : option string;
  sample_names : option string;
  sample_filters : option string;
  filename : option string;
  make_data_dir : option bool;
  data_format : option string;
  zip_data_dir : option bool;
  force : option bool;
  ignore_symlinks : option bool;
  make_report : option bool;
  export_plots : option bool;
  plots_force_flat : option bool;
  plots_force_interactive : option bool;
  strict : option bool;
  development : option bool;
  make_pdf : option bool;
  no_megaqc_upload : option bool;
  quiet : option bool;
  verbose : option bool;
  no_ansi : option bool;
  profile_runtime : option bool;
  profile_memory : option bool;
  no_version_check : option bool;
  ignore : list string;
  ignore_samples : list string;
  only_samples : list string;
  run_modules : list string;
  exclude_modules : list string;
  config_files : list string;
  cl_config : list string;
  custom_css_files : list string;
  module_order : list mod_entry;
  extra_fn_clean_exts : list pyval;
  extra_fn_clean_trim : list pyval;
  preserve_module_raw_data : option bool;
  data_dump_file_write_raw : option bool;
  ai_summary : option bool;
  ai_summary_full : option bool;
  ai_provider : option AiProviderLiteral;
  ai_model : option string;
  ai_custom_endpoint : option string;
  ai_custom_context_window : option Z;
  ai_prompt_short : option string;
  ai_prompt_full : option string;
  no_ai : option bool;
  unknown_options : option pydict;
  check_config : option bool
}.

(** [ClConfig()]: every field at its declared default. *)
Definition default : t :=
  mk None None None None None None None None None None
     None None None None None None None None None None
     None None None None None None None None None None
     None None None
     [] [] [] [] [] [] [] [] [] [] []
     None None None None None None None None None None None None None.

End ClConfig.

(** A positional argument of [update_config] (its star-argument
    [analysis_dir]): a path, or (legacy call style) the [ClConfig] object
    itself. *)
Inductive posarg : Type :=
| PosPath (p : string)
| PosCfg (c : ClConfig.t).

(** ** The [multiqc.config] module namespace *)

Module config.

(** The attributes of [config] that [update_config] reads or assigns. *)
Inductive attr : Type :=
| version
| quiet | no_ansi | verbose
| loaded_user_files | explicit_user_config_files
| template | title | report_comment
| prepend_dirs | prepend_dirs_depth
| output_dir | use_filename_as_sample_name
| make_data_dir | force | ignore_symlinks | zip_data_dir | data_format
| export_plots | make_report | plots_force_flat | plots_force_interactive
| strict | lint | development | make_pdf | simple_output
| filename | megaqc_upload | fn_clean_sample_names
| run_modules | exclude_modules | require_logs
| profile_runtime | profile_memory | no_version_check
| custom_css_files | module_order | top_modules
| fn_clean_exts | fn_clean_trim
| preserve_module_raw_data | data_dump_file_write_raw
| ai_summary | ai_summary_full | ai_provider | ai_model
| ai_custom_endpoint | ai_custom_context_window
| ai_prompt_short | ai_prompt_full | no_ai
| export_plot_formats
| analysis_dir | file_list
| fn_ignore_files | fn_ignore_dirs | fn_ignore_paths
| sample_names_ignore | sample_names_only_include
| kwargs.

Definition attr_eq_dec (a b : attr) : {a = b} + {a <> b}.
Proof. decide equality. Defined.

(** The type of the value held by each attribute.  Flags are booleans,
    string- and integer-valued settings may be [None], list settings are
    lists. *)
Definition ty (a : attr) : Type :=
  match a with
  | version => string
  | quiet | no_ansi | verbose => bool
  | loaded_user_files | explicit_user_config_files => list string
  | template | title | report_comment => option string
  | prepend_dirs => bool
  | prepend_dirs_depth => Z
  | output_dir => option string
  | use_filename_as_sample_name => bool_or_list
  | make_data_dir | force | ignore_symlinks | zip_data_dir => bool
  | data_format => option string
  | export_plots | make_report | plots_force_flat
  | plots_force_interactive | strict | lint | development | make_pdf
  | simple_output => bool
  | filename => option string
  | megaqc_upload | fn_clean_sample_names => bool
  | run_modules | exclude_modules => list string
  | require_logs | profile_runtime | profile_memory
  | no_version_check => bool
  | custom_css_files => list string
  | module_order | top_modules => list mod_entry
  | fn_clean_exts | fn_clean_trim => list pyval
  | preserve_module_raw_data | data_dump_file_write_raw => bool
  | ai_summary | ai_summary_full => bool
  | ai_provider => option AiProviderLiteral
  | ai_model | ai_custom_endpoint => option string
  | ai_custom_context_window => option Z
  | ai_prompt_short | ai_prompt_full => option string
  | no_ai => bool
  | export_plot_formats => list string
  | analysis_dir => list posarg
  | file_list => bool
  | fn_ignore_files | fn_ignore_dirs | fn_ignore_paths => list string
  | sample_names_ignore | sample_names_only_include => list string
  | kwargs => pydict
  end.

(** The namespace: one value per attribute. *)
Definition t : Type := forall a : attr, ty a.

Definition get (a : attr) (c : t) : ty a := c a.

(** [config.a = v] *)
Definition set (a : attr) (v : ty a) (c : t) : t :=
  fun b =>
    match attr_eq_dec a b with
    | left e => eq_rect a ty v b e
    | right _ => c b
    end.

End config.

(** ** Effects: the world, the trace of collaborator calls, exceptions *)

Inductive log_level : Type := DEBUG | INFO.

(** Calls that leave [update_config.py].  The logging set-up and the plugin
    hooks read the [config] namespace, so their events carry the namespace
    as it is when they are called. *)
Inductive event : Type :=
| EvLoadDefaults
| EvInitLog (log_to_file : bool) (seen : config.t)
| EvPrintIntro
| EvLog (level : log_level) (msg : string)
| EvHook (name : string) (seen : config.t)
| EvFindUserFiles
| EvLoadConfigFile (path : string) (is_explicit_config : option bool)
| EvLoadClConfig (cl_config : list string)
| EvLoadReplaceNames (path : string)
| EvLoadSampleNames (path : string)
| EvLoadShowHide (show_hide_file : option string).

Record World : Type := mkWorld {
  conf : config.t;                       (* the [config] module *)
  report_top_modules : list pydict;      (* [report.top_modules] *)
  report_module_order : list pydict;     (* [report.module_order] *)
  trace : list event                     (* oldest call first *)
}.

Inductive exn : Type :=
| RunError (msg : string).

(** Outcome of a call: normal return, or an exception that leaves the world
    as mutated so far. *)
Inductive result : Type :=
| Ok (w : World)
| Raise (e : exn) (w : World).

Definition world_of (r : result) : World :=
  match r with Ok w => w | Raise _ w => w end.

Definition M : Type := World -> result.

Definition bind (m k : M) : M :=
  fun w => match m w with
           | Ok w' => k w'
           | Raise e w' => Raise e w'
           end.

Definition raise (e : exn) : M := fun w => Raise e w.

(** Statements that cannot raise are plain world transformers. *)
Definition step : Type := World -> World.

Definition lift (s : step) : M := fun w => Ok (s w).

Definition seq (a b : step) : step := fun w => b (a w).

Definition skip : step := fun w => w.

Declare Scope py_scope.
Delimit Scope py_scope with py.
Notation "a ;; b" := (seq a b) (at level 61, right associativity) : py_scope.
Notation "m >> k" := (bind m k) (at level 62, right associativity) : py_scope.
Local Open Scope py_scope.

(** [config.a = v] *)
Definition setattr (a : config.attr) (v : config.ty a) : step :=
  fun w => mkWorld (config.set a v (conf w))
                   (report_top_modules w) (report_module_order w) (trace w).

(** A collaborator call that mutates the [config] namespace. *)
Definition on_config (f : config.t -> config.t) : step :=
  fun w => mkWorld (f (conf w))
                   (report_top_modules w) (report_module_order w) (trace w).

(** A statement that reads the [config] namespace. *)
Definition with_config (f : config.t -> step) : step :=
  fun w => f (conf w) w.

Definition emit (e : event) : step :=
  fun w => mkWorld (conf w) (report_top_modules w) (report_module_order w)
                   (trace w ++ [e]).

Definition set_report_top_modules (l : list pydict) : step :=
  fun w => mkWorld (conf w) l (report_module_order w) (trace w).

Definition set_report_module_order (l : list pydict) : step :=
  fun w => mkWorld (conf w) (report_top_modules w) l (trace w).

(** [if o is not None: body(o)] *)
Definition if_not_None {A} (o : option A) (body : A -> step) : step :=
  match o with
  | Some v => body v
  | None => skip
  end.

(** [if b: body] *)
Definition when (b : bool) (body : step) : step :=
  if b then body else skip.

(** [for x in l: body(x)] *)
Fixpoint for_each {A} (l : list A) (body : A -> step) : step :=
  match l with
  | [] => skip
  | x :: l' => body x ;; for_each l' body
  end.

Definition logger_debug (msg : string) : step := emit (EvLog DEBUG msg).
Definition logger_info (msg : string) : step := emit (EvLog INFO msg).

(** [log_and_rich.init_log(log_to_file=...)] *)
Definition init_log (log_to_file : bool) : step :=
  with_config (fun c => emit (EvInitLog log_to_file c)).

(** Modelled from the spec: [plugin_hooks.mqc_trigger] is not in this file.
    The spec has listeners "invoked with event name only, no payload, no
    return value consumed" and the Store "mutated exclusively by the
    Resolution Engine and the Source Loader during a pass": a trigger is an
    observation of the current namespace. *)
Definition mqc_trigger (name : string) : step :=
  with_config (fun c => emit (EvHook name c)).

(** Modelled from the spec: [config.load_replace_names],
    [config.load_sample_names] and [config.load_show_hide] are not in this
    file; per the spec "each mutates dedicated Store sub-sections", none of
    which is an attribute [update_config] touches, so they appear as
    calls only. *)
Definition load_replace_names (p : string) : step :=
  emit (EvLoadReplaceNames p).
Definition load_sample_names (p : string) : step :=
  emit (EvLoadSampleNames p).
Definition load_show_hide (show_hide_file : option string) : step :=
  emit (EvLoadShowHide show_hide_file).

(** ** String helpers *)

(** [s.replace("\n", " ")] *)
Fixpoint replace_newlines (s : string) : string :=
  match s with
  | EmptyString => EmptyString
  | String c s' =>
      String (if Ascii.eqb c "010"%char then " "%char else c)
             (replace_newlines s')
  end.

(** [str(x)] for an [Optional[str]] inside an f-string. *)
Definition str_opt (o : option string) : string :=
  match o with Some s => s | None => "None" end.

Definition opt_string_eqb (a b : option string) : bool :=
  match a, b with
  | Some x, Some y => String.eqb x y
  | None, None => true
  | _, _ => false
  end.

(** [x in l] for a list of strings. *)
Definition str_in (x : string) (l : list string) : bool :=
  existsb (String.eqb x) l.

(** [m if isinstance(m, dict) else {m: {}}] *)
Definition prep_module (m : mod_entry) : pydict :=
  match m with
  | MDict d => d
  | MStr name => [(name, PDict [])]
  end.

(** ** [update_config] *)

Section UpdateConfig.

(** What this file takes from its environment: the built-in defaults,
    the source-loading functions of [multiqc.config] (they may assign any
    attribute), [os.path.realpath] and [sys.version]. *)
Variable defaults : config.t.
Variable find_user_files : config.t -> config.t.
Variable load_config_file : string -> option bool -> config.t -> config.t.
Variable load_cl_config : list string -> config.t -> config.t.
Variable realpath : string -> string.
Variable sys_version : string.

(** Modelled from the spec: [config.load_defaults] is not in this file;
    the spec's phase 1 is "Reset Store to built-in defaults". *)
Definition load_defaults : step :=
  emit EvLoadDefaults ;; on_config (fun _ => defaults).

(** [config.find_user_files()] *)
Definition config_find_user_files : step :=
  emit EvFindUserFiles ;; on_config find_user_files.

(** [config.load_config_file(path, is_explicit_config=...)]; [None] is
    the callee's default for the keyword. *)
Definition config_load_config_file
           (path : string) (is_explicit_config : option bool) : step :=
  emit (EvLoadConfigFile path is_explicit_config) ;;
  on_config (load_config_file path is_explicit_config).

(** [config.load_cl_config(cl_config)] *)
Definition config_load_cl_config (l : list string) : step :=
  emit (EvLoadClConfig l) ;; on_config (load_cl_config l).

(** Lines 92-94: the override object in effect. *)
Definition effective_cfg
           (analysis_dir : list posarg) (cfg : option ClConfig.t)
  : ClConfig.t :=
  let cfg :=
    match cfg, analysis_dir with
    | None, PosCfg c :: _ => Some c
    | _, _ => cfg
    end in
  match cfg with
  | Some c => c
  | None => ClConfig.default
  end.

(** Lines 89-102: "Reload from defaults" and the three verbosity fields,
    which are applied before the logger is initialised. *)
Definition reset_verbosity (cfg : ClConfig.t) : step :=
  (* Reload from defaults *)
  load_defaults ;;
  (* Reset logger *)
  if_not_None (ClConfig.quiet cfg) (fun v => setattr config.quiet v) ;;
  if_not_None (ClConfig.no_ansi cfg) (fun v => setattr config.no_ansi v) ;;
  if_not_None (ClConfig.verbose cfg)
    (fun v => setattr config.verbose (Z.b2z v >? 0)%Z).

(** Lines 104-109: logger initialisation, banner, version messages. *)
Definition start_logging
           (log_to_file : bool)
           (print_intro_fn : option (config.t -> config.t)) : step :=
  init_log log_to_file ;;
  if_not_None print_intro_fn (fun f => emit EvPrintIntro ;; on_config f) ;;
  with_config (fun c =>
    logger_debug ("This is MultiQC v" ++ config.get config.version c)) ;;
  logger_debug ("Running Python " ++ replace_newlines sys_version).

(** Lines 113-129: implicit, explicit, session and command-line configs. *)
Definition load_user_configs (cfg : ClConfig.t) : step :=
  setattr config.loaded_user_files [] ;;
  (* Re-finding implicit configs *)
  config_find_user_files ;;
  (* Re-loading explicit user configs *)
  with_config (fun c =>
    for_each (config.get config.explicit_user_config_files c)
             (fun path => config_load_config_file path None)) ;;
  (* Set up session config files passed with -c or cfg= *)
  for_each (ClConfig.config_files cfg)
           (fun path => config_load_config_file path (Some false)) ;;
  (* Command-line config YAML *)
  when (0 <? List.length (ClConfig.cl_config cfg))%nat
       (config_load_cl_config (ClConfig.cl_config cfg)).

(** Lines 89-129: everything up to the command-line overrides. *)
Definition reload_config
           (cfg : ClConfig.t) (log_to_file : bool)
           (print_intro_fn : option (config.t -> config.t)) : step :=
  reset_verbosity cfg ;;
  start_logging log_to_file print_intro_fn ;;
  mqc_trigger "before_config" ;;
  load_user_configs cfg.

(** Lines 131-237: "Set up key variables (overwrite config vars from
    command line)", followed by the [png] rule of lines 236-237. *)
Definition overwrite_config_vars (cfg : ClConfig.t) : step :=
  if_not_None (ClConfig.template cfg)
    (fun v => setattr config.template (Some v)) ;;
  if_not_None (ClConfig.title cfg) (fun v =>
    setattr config.title (Some v) ;;
    with_config (fun c =>
      logger_info ("Report title: " ++ str_opt (config.get config.title c)))) ;;
  if_not_None (ClConfig.report_comment cfg)
    (fun v => setattr config.report_comment (Some v)) ;;
  if_not_None (ClConfig.prepend_dirs cfg) (fun v =>
    setattr config.prepend_dirs v ;;
    logger_info "Prepending directory to sample names") ;;
  if_not_None (ClConfig.dirs_depth cfg) (fun v =>
    setattr config.prepend_dirs true ;;
    setattr config.prepend_dirs_depth v) ;;
  if_not_None (ClConfig.output_dir cfg)
    (fun v => setattr config.output_dir (Some (realpath v))) ;;
  if_not_None (ClConfig.use_filename_as_sample_name cfg) (fun v =>
    setattr config.use_filename_as_sample_name v ;;
    when (truthy_bool_or_list v)
         (logger_info "Using log filenames for sample names")) ;;
  if_not_None (ClConfig.make_data_dir cfg)
    (fun v => setattr config.make_data_dir v) ;;
  if_not_None (ClConfig.force cfg) (fun v => setattr config.force v) ;;
  if_not_None (ClConfig.ignore_symlinks cfg)
    (fun v => setattr config.ignore_symlinks v) ;;
  if_not_None (ClConfig.zip_data_dir cfg)
    (fun v => setattr config.zip_data_dir v) ;;
  if_not_None (ClConfig.data_format cfg)
    (fun v => setattr config.data_format (Some v)) ;;
  if_not_None (ClConfig.export_plots cfg)
    (fun v => setattr config.export_plots v) ;;
  if_not_None (ClConfig.make_report cfg)
    (fun v => setattr config.make_report v) ;;
  if_not_None (ClConfig.plots_force_flat cfg)
    (fun v => setattr config.plots_force_flat v) ;;
  if_not_None (ClConfig.plots_force_interactive cfg)
    (fun v => setattr config.plots_force_interactive v) ;;
  if_not_None (ClConfig.strict cfg) (fun v =>
    setattr config.strict v ;;
    setattr config.lint v (* Deprecated since v1.17 *)) ;;
  if_not_None (ClConfig.development cfg)
    (fun v => setattr config.development v) ;;
  when (truthy_bool (ClConfig.make_pdf cfg))
    (setattr config.make_pdf true ;;
     setattr config.template (Some "simple")) ;;
  with_config (fun c =>
    when (opt_string_eqb (config.get config.template c) (Some "simple"))
      (setattr config.plots_force_flat true ;;
       setattr config.simple_output true)) ;;
  when (truthy_str (ClConfig.filename cfg))
    (setattr config.filename (ClConfig.filename cfg)) ;;
  if_not_None (ClConfig.no_megaqc_upload cfg)
    (fun v => setattr config.megaqc_upload (negb v)) ;;
  if_not_None (ClConfig.fn_clean_sample_names cfg) (fun v =>
    setattr config.fn_clean_sample_names v ;;
    logger_info "Not cleaning sample names") ;;
  when (truthy_str (ClConfig.replace_names cfg))
    (if_not_None (ClConfig.replace_names cfg) load_replace_names) ;;
  when (truthy_str (ClConfig.sample_names cfg))
    (if_not_None (ClConfig.sample_names cfg) load_sample_names) ;;
  load_show_hide
    (if truthy_str (ClConfig.sample_filters cfg)
     then ClConfig.sample_filters cfg else None) ;;
  when (0 <? List.length (ClConfig.run_modules cfg))%nat
    (setattr config.run_modules (ClConfig.run_modules cfg)) ;;
  when (0 <? List.length (ClConfig.exclude_modules cfg))%nat
    (setattr config.exclude_modules (ClConfig.exclude_modules cfg)) ;;
  if_not_None (ClConfig.require_logs cfg)
    (fun v => setattr config.require_logs v) ;;
  if_not_None (ClConfig.profile_runtime cfg)
    (fun v => setattr config.profile_runtime v) ;;
  if_not_None (ClConfig.profile_memory cfg) (fun v =>
    (* chained assignment: targets are assigned left to right *)
    setattr config.profile_runtime v ;;
    setattr config.profile_memory v) ;;
  if_not_None (ClConfig.no_version_check cfg)
    (fun v => setattr config.no_version_check v) ;;
  when (truthy_list (ClConfig.custom_css_files cfg))
    (with_config (fun c =>
       setattr config.custom_css_files
         (config.get config.custom_css_files c
          ++ ClConfig.custom_css_files cfg))) ;;
  when (truthy_list (ClConfig.module_order cfg))
    (setattr config.module_order (ClConfig.module_order cfg)) ;;
  when (truthy_list (ClConfig.extra_fn_clean_exts cfg))
    (with_config (fun c =>
       setattr config.fn_clean_exts
         (ClConfig.extra_fn_clean_exts cfg
          ++ config.get config.fn_clean_exts c))) ;;
  when (truthy_list (ClConfig.extra_fn_clean_trim cfg))
    (with_config (fun c =>
       setattr config.fn_clean_trim
         (ClConfig.extra_fn_clean_trim cfg
          ++ config.get config.fn_clean_trim c))) ;;
  if_not_None (ClConfig.preserve_module_raw_data cfg)
    (fun v => setattr config.preserve_module_raw_data v) ;;
  if_not_None (ClConfig.data_dump_file_write_raw cfg)
    (fun v => setattr config.data_dump_file_write_raw v) ;;
  if_not_None (ClConfig.ai_summary cfg)
    (fun v => setattr config.ai_summary v) ;;
  if_not_None (ClConfig.ai_summary_full cfg) (fun v =>
    setattr config.ai_summary v ;;
    setattr config.ai_summary_full v) ;;
  if_not_None (ClConfig.ai_provider cfg)
    (fun v => setattr config.ai_provider (Some v)) ;;
  if_not_None (ClConfig.ai_model cfg)
    (fun v => setattr config.ai_model (Some v)) ;;
  if_not_None (ClConfig.ai_custom_endpoint cfg)
    (fun v => setattr config.ai_custom_endpoint (Some v)) ;;
  if_not_None (ClConfig.ai_custom_context_window cfg)
    (fun v => setattr config.ai_custom_context_window (Some v)) ;;
  if_not_None (ClConfig.ai_prompt_short cfg)
    (fun v => setattr config.ai_prompt_short (Some v)) ;;
  if_not_None (ClConfig.ai_prompt_full cfg)
    (fun v => setattr config.ai_prompt_full (Some v)) ;;
  if_not_None (ClConfig.no_ai cfg) (fun v => setattr config.no_ai v) ;;
  with_config (fun c =>
    when (config.get config.development c
          && negb (str_in "png" (config.get config.export_plot_formats c)))
      (setattr config.export_plot_formats
         (config.get config.export_plot_formats c ++ ["png"]))).

(** Lines 240-241: "Clean up analysis_dir". *)
Definition set_analysis_dir (analysis_dir : list posarg) : step :=
  when (truthy_list analysis_dir)
    (setattr config.analysis_dir analysis_dir).

(** Lines 242-245: the only [raise] of the function. *)
Definition check_file_list (cfg : ClConfig.t) : M :=
  match ClConfig.file_list cfg with
  | Some v =>
      (fun w =>
         if (1 <? List.length (config.get config.analysis_dir (conf w)))%nat
         then raise (RunError "If --file-list is given, analysis_dir should have only one plain text file.") w
         else Ok w) >>
      lift (setattr config.file_list v)
  | None => lift skip
  end.

(** Lines 247-263: ignore lists, module configs, passthrough options. *)
Definition extend_and_prep (cfg : ClConfig.t) : step :=
  when (0 <? List.length (ClConfig.ignore cfg))%nat
    (logger_debug ("Ignoring files, directories and paths that match: "
                   ++ String.concat ", " (ClConfig.ignore cfg)) ;;
     with_config (fun c =>
       setattr config.fn_ignore_files
         (config.get config.fn_ignore_files c ++ ClConfig.ignore cfg)) ;;
     with_config (fun c =>
       setattr config.fn_ignore_dirs
         (config.get config.fn_ignore_dirs c ++ ClConfig.ignore cfg)) ;;
     with_config (fun c =>
       setattr config.fn_ignore_paths
         (config.get config.fn_ignore_paths c ++ ClConfig.ignore cfg))) ;;
  when (0 <? List.length (ClConfig.ignore_samples cfg))%nat
    (logger_debug ("Ignoring sample names that match: "
                   ++ String.concat ", " (ClConfig.ignore_samples cfg)) ;;
     with_config (fun c =>
       setattr config.sample_names_ignore
         (config.get config.sample_names_ignore c
          ++ ClConfig.ignore_samples cfg))) ;;
  when (0 <? List.length (ClConfig.only_samples cfg))%nat
    (logger_debug ("Only including sample names that match: "
                   ++ String.concat ", " (ClConfig.only_samples cfg)) ;;
     with_config (fun c =>
       setattr config.sample_names_only_include
         (config.get config.sample_names_only_include c
          ++ ClConfig.only_samples cfg))) ;;
  (* Prep module configs *)
  with_config (fun c =>
    set_report_top_modules
      (map prep_module (config.get config.top_modules c))) ;;
  with_config (fun c =>
    set_report_module_order
      (map prep_module (config.get config.module_order c))) ;;
  when (truthy_dict (ClConfig.unknown_options cfg))
    (if_not_None (ClConfig.unknown_options cfg)
       (fun d => setattr config.kwargs d)).

(** Lines 247-266: the above, then the two closing hooks. *)
Definition finish_config (cfg : ClConfig.t) : step :=
  extend_and_prep cfg ;;
  mqc_trigger "config_loaded" ;;
  mqc_trigger "execution_start".

(** [update_config]: positional [analysis_dir], keywords [cfg=None],
    [log_to_file=False], [print_intro_fn=None]. *)
Definition update_config
           (analysis_dir : list posarg) (cfg : option ClConfig.t)
           (log_to_file : bool)
           (print_intro_fn : option (config.t -> config.t)) : M :=
  let cfg := effective_cfg analysis_dir cfg in
  lift (reload_config cfg log_to_file print_intro_fn ;;
        overwrite_config_vars cfg ;;
        set_analysis_dir analysis_dir) >>
  check_file_list cfg >>
  lift (finish_config cfg).

Definition file_list_message : string :=
  "If --file-list is given, analysis_dir should have only one plain text file.".

(** The world at line 237, after the overrides have been applied. *)
Definition after_overwrite
           (analysis_dir : list posarg) (cfg : option ClConfig.t)
           (log_to_file : bool)
           (print_intro_fn : option (config.t -> config.t)) : step :=
  let cfg := effective_cfg analysis_dir cfg in
  reload_config cfg log_to_file print_intro_fn ;;
  overwrite_config_vars cfg.

(** The world at line 242, where the file-list check is made. *)
Definition before_check
           (analysis_dir : list posarg) (cfg : option ClConfig.t)
           (log_to_file : bool)
           (print_intro_fn : option (config.t -> config.t)) : step :=
  let cfg := effective_cfg analysis_dir cfg in
  reload_config cfg log_to_file print_intro_fn ;;
  overwrite_config_vars cfg ;;
  set_analysis_dir analysis_dir.

(** Attributes assigned by lines 131-237. *)
Definition assigned_by_overwrite (a : config.attr) : bool :=
  match a with
  | config.version | config.quiet | config.no_ansi | config.verbose
  | config.loaded_user_files | config.explicit_user_config_files
  | config.top_modules | config.analysis_dir | config.file_list
  | config.fn_ignore_files | config.fn_ignore_dirs | config.fn_ignore_paths
  | config.sample_names_ignore | config.sample_names_only_include
  | config.kwargs => false
  | _ => true
  end.

(** ** Properties of statements used in the proofs *)

(** A statement leaves attribute [a] of [config] alone. *)
Definition preserves (a : config.attr) (s : step) : Prop :=
  forall w, config.get a (conf (s w)) = config.get a (conf w).

(** The [config] namespace a statement leaves depends only on the
    namespace it starts from (not on the trace or on [report]). *)
Definition conf_only (s : step) : Prop :=
  forall w1 w2, conf w1 = conf w2 -> conf (s w1) = conf (s w2).

(** Plugin-hook notifications. *)
Definition is_hook (e : event) : bool :=
  match e with EvHook _ _ => true | _ => false end.

(** Discovery or loading of configuration (and auxiliary) files. *)
Definition is_loading (e : event) : bool :=
  match e with
  | EvFindUserFiles | EvLoadConfigFile _ _ | EvLoadClConfig _
  | EvLoadReplaceNames _ | EvLoadSampleNames _ | EvLoadShowHide _ => true
  | _ => false
  end.

Definition not_hook (e : event) : Prop := is_hook e = false.

Definition not_hook_nor_loading (e : event) : Prop :=
  is_hook e = false /\ is_loading e = false.

(** A statement only appends to the trace, and only events in [P]. *)
Definition emits (P : event -> Prop) (s : step) : Prop :=
  forall w, exists evs, trace (s w) = trace w ++ evs /\ Forall P evs.

(** ** The fields of [ClConfig] guarded by [is not None] *)

Inductive opt_field : Type :=
| F_file_list | F_prepend_dirs | F_dirs_depth | F_fn_clean_sample_names
| F_title | F_report_comment | F_template | F_require_logs | F_output_dir
| F_use_filename_as_sample_name | F_make_data_dir | F_data_format
| F_zip_data_dir | F_force | F_ignore_symlinks | F_make_report
| F_export_plots | F_plots_force_flat | F_plots_force_interactive
| F_strict | F_development | F_no_megaqc_upload
| F_quiet | F_verbose | F_no_ansi
| F_profile_runtime | F_profile_memory | F_no_version_check
| F_preserve_module_raw_data | F_data_dump_file_write_raw
| F_ai_summary | F_ai_summary_full | F_ai_provider | F_ai_model
| F_ai_custom_endpoint | F_ai_custom_context_window
| F_ai_prompt_short | F_ai_prompt_full | F_no_ai.

(** The attribute of [config] that the field's own statement assigns. *)
Definition target (f : opt_field) : config.attr :=
  match f with
  | F_file_list => config.file_list
  | F_prepend_dirs => config.prepend_dirs
  | F_dirs_depth => config.prepend_dirs_depth
  | F_fn_clean_sample_names => config.fn_clean_sample_names
  | F_title => config.title
  | F_report_comment => config.report_comment
  | F_template => config.template
  | F_require_logs => config.require_logs
  | F_output_dir => config.output_dir
  | F_use_filename_as_sample_name => config.use_filename_as_sample_name
  | F_make_data_dir => config.make_data_dir
  | F_data_format => config.data_format
  | F_zip_data_dir => config.zip_data_dir
  | F_force => config.force
  | F_ignore_symlinks => config.ignore_symlinks
  | F_make_report => config.make_report
  | F_export_plots => config.export_plots
  | F_plots_force_flat => config.plots_force_flat
  | F_plots_force_interactive => config.plots_force_interactive
  | F_strict => config.strict
  | F_development => config.development
  | F_no_megaqc_upload => config.megaqc_upload
  | F_quiet => config.quiet
  | F_verbose => config.verbose
  | F_no_ansi => config.no_ansi
  | F_profile_runtime => config.profile_runtime
  | F_profile_memory => config.profile_memory
  | F_no_version_check => config.no_version_check
  | F_preserve_module_raw_data => config.preserve_module_raw_data
  | F_data_dump_file_write_raw => config.data_dump_file_write_raw
  | F_ai_summary => config.ai_summary
  | F_ai_summary_full => config.ai_summary_full
  | F_ai_provider => config.ai_provider
  | F_ai_model => config.ai_model
  | F_ai_custom_endpoint => config.ai_custom_endpoint
  | F_ai_custom_context_window => config.ai_custom_context_window
  | F_ai_prompt_short => config.ai_prompt_short
  | F_ai_prompt_full => config.ai_prompt_full
  | F_no_ai => config.no_ai
  end.

(** The value the field's own statement assigns to its target, if the
    field is set. *)
Definition assigned (f : opt_field) (c : ClConfig.t)
  : option (config.ty (target f)) :=
  match f return option (config.ty (target f)) with
  | F_file_list => ClConfig.file_list c
  | F_prepend_dirs => ClConfig.prepend_dirs c
  | F_dirs_depth => ClConfig.dirs_depth c
  | F_fn_clean_sample_names => ClConfig.fn_clean_sample_names c
  | F_title => option_map Some (ClConfig.title c)
  | F_report_comment => option_map Some (ClConfig.report_comment c)
  | F_template => option_map Some (ClConfig.template c)
  | F_require_logs => ClConfig.require_logs c
  | F_output_dir =>
      option_map (fun v => Some (realpath v)) (ClConfig.output_dir c)
  | F_use_filename_as_sample_name => ClConfig.use_filename_as_sample_name c
  | F_make_data_dir => ClConfig.make_data_dir c
  | F_data_format => option_map Some (ClConfig.data_format c)
  | F_zip_data_dir => ClConfig.zip_data_dir c
  | F_force => ClConfig.force c
  | F_ignore_symlinks => ClConfig.ignore_symlinks c
  | F_make_report => ClConfig.make_report c
  | F_export_plots => ClConfig.export_plots c
  | F_plots_force_flat => ClConfig.plots_force_flat c
  | F_plots_force_interactive => ClConfig.plots_force_interactive c
  | F_strict => ClConfig.strict c
  | F_development => ClConfig.development c
  | F_no_megaqc_upload => option_map negb (ClConfig.no_megaqc_upload c)
  | F_quiet => ClConfig.quiet c
  | F_verbose =>
      option_map (fun v => (Z.b2z v >? 0)%Z) (ClConfig.verbose c)
  | F_no_ansi => ClConfig.no_ansi c
  | F_profile_runtime => ClConfig.profile_runtime c
  | F_profile_memory => ClConfig.profile_memory c
  | F_no_version_check => ClConfig.no_version_check c
  | F_preserve_module_raw_data => ClConfig.preserve_module_raw_data c
  | F_data_dump_file_write_raw => ClConfig.data_dump_file_write_raw c
  | F_ai_summary => ClConfig.ai_summary c
  | F_ai_summary_full => ClConfig.ai_summary_full c
  | F_ai_provider => option_map Some (ClConfig.ai_provider c)
  | F_ai_model => option_map Some (ClConfig.ai_model c)
  | F_ai_custom_endpoint => option_map Some (ClConfig.ai_custom_endpoint c)
  | F_ai_custom_context_window =>
      option_map Some (ClConfig.ai_custom_context_window c)
  | F_ai_prompt_short => option_map Some (ClConfig.ai_prompt_short c)
  | F_ai_prompt_full => option_map Some (ClConfig.ai_prompt_full c)
  | F_no_ai => ClConfig.no_ai c
  end.

(** The three verbosity fields are applied to the defaults, before the
    config files are loaded; every other field after them. *)
Definition applied_early (f : opt_field) : bool :=
  match f with
  | F_quiet | F_verbose | F_no_ansi => true
  | _ => false
  end.

(** A later statement of the function assigns the field's target on
    behalf of another field: [dirs_depth] forces [prepend_dirs], a true
    [make_pdf] forces [template], the "simple" template forces
    [plots_force_flat], [profile_memory] sets [profile_runtime],
    [ai_summary_full] sets [ai_summary]. *)
Definition overridden
           (f : opt_field) (c : ClConfig.t) (final : config.t) : bool :=
  match f with
  | F_prepend_dirs => is_not_None (ClConfig.dirs_depth c)
  | F_template => truthy_bool (ClConfig.make_pdf c)
  | F_plots_force_flat =>
      opt_string_eqb (config.get config.template final) (Some "simple")
  | F_profile_runtime => is_not_None (ClConfig.profile_memory c)
  | F_ai_summary => is_not_None (ClConfig.ai_summary_full c)
  | _ => false
  end.

(** ** A concrete run, used to exercise the statements below *)

(** Every attribute empty or false. *)
Definition zero_config : config.t.
Proof.
  intros a. destruct a; simpl;
    first [ exact false | exact (@None _) | exact (@nil _)
          | exact 0%Z | exact EmptyString | exact (UBool false) ].
Defined.

Definition ex_defaults : config.t :=
  config.set config.version "1.25"
    (config.set config.template (Some "default")
       (config.set config.export_plot_formats ["pdf"; "svg"]
          (config.set config.fn_ignore_files ["*.bak"]
             (config.set config.fn_ignore_dirs ["multiqc_data"]
                (config.set config.analysis_dir [PosPath "."]
                   zero_config))))).

Definition ex_find_user_files (c : config.t) : config.t := c.

(** One config file, [pdf.yaml], that asks for a PDF report named
    [qc.html] and turns [quiet] off. *)
Definition ex_load_config_file
           (path : string) (is_explicit_config : option bool)
           (c : config.t) : config.t :=
  if String.eqb path "pdf.yaml"
  then config.set config.make_pdf true
         (config.set config.filename (Some "qc.html")
            (config.set config.quiet false c))
  else c.

Definition ex_load_cl_config (l : list string) (c : config.t) : config.t :=
  c.

Definition ex_realpath (p : string) : string := p.

Definition ex_sys_version : string := "3.12.4 (main)".

Definition ex_world : World := mkWorld zero_config [] [] [].

(** An override object with the given fields, the others at their
    defaults. *)
Definition ex_cfg
           (file_list prepend_dirs : option bool) (dirs_depth : option Z)
           (title template : option string)
           (filename : option string)
           (development make_pdf quiet : option bool)
           (profile_runtime profile_memory : option bool)
           (ignore config_files : list string)
           (ai_summary ai_summary_full : option bool) : ClConfig.t :=
  ClConfig.mk
    file_list prepend_dirs dirs_depth None title None template None None
    None None None None filename None None None None None None
    None None None None development make_pdf None quiet None None
    profile_runtime profile_memory None
    ignore [] [] [] [] config_files [] [] [] [] []
    None None ai_summary ai_summary_full None None None None None None
    None None None.

(** [--dirs-depth 2 --no-prepend-dirs --development --ignore "*.tmp"]
    with a title. *)
Definition ex_cfg_depth : ClConfig.t :=
  ex_cfg None (Some false) (Some 2%Z) (Some "Run 7") None None
         (Some true) None None None None ["*.tmp"] [] None None.

(** [template="simple"] and [file_list=True]. *)
Definition ex_cfg_simple : ClConfig.t :=
  ex_cfg (Some true) None None None (Some "simple") None
         None None None None None [] [] None None.

(** Explicit falsy values, after [pdf.yaml] has been loaded. *)
Definition ex_cfg_falsy : ClConfig.t :=
  ex_cfg None None (Some 1%Z) None None (Some EmptyString)
         None (Some false) (Some true) None None [] ["pdf.yaml"] None None.

(** [ai_summary=True, ai_summary_full=False]. *)
Definition ex_cfg_ai_off : ClConfig.t :=
  ex_cfg None None None None None None
         None None None None None [] [] (Some true) (Some false).

(** [profile_runtime=True, profile_memory=False]. *)
Definition ex_cfg_profile_off : ClConfig.t :=
  ex_cfg None None None None None None
         None None None (Some true) (Some false) [] [] None None.

(** [ai_summary_full=True, profile_memory=True]. *)
Definition ex_cfg_full : ClConfig.t :=
  ex_cfg None None None None None None
         None None None None (Some true) [] [] None (Some true).

(** ** Further properties of statements *)

(** A statement leaves the two [report] lists alone. *)
Definition keeps_report (s : step) : Prop :=
  forall w, report_top_modules (s w) = report_top_modules w /\
            report_module_order (s w) = report_module_order w.

(** A statement only appends to the trace. *)
Definition appends (s : step) : Prop := emits (fun _ => True) s.

(** A statement appends to the trace, and event [e] is among what it
    appends. *)
Definition adds (e : event) (s : step) : Prop :=
  forall w, exists evs, trace (s w) = trace w ++ evs /\ In e evs.

Definition is_load_replace_names (e : event) : bool :=
  match e with EvLoadReplaceNames _ => true | _ => false end.

Definition is_load_sample_names (e : event) : bool :=
  match e with EvLoadSampleNames _ => true | _ => false end.

Definition is_load_cl_config (e : event) : bool :=
  match e with EvLoadClConfig _ => true | _ => false end.

(** Defaults with some non-empty lists. *)
Definition ex_defaults_lists : config.t :=
  config.set config.fn_clean_exts [PStr ".fastq"; PStr ".bam"]
    (config.set config.fn_clean_trim [PStr "_R1"]
       (config.set config.custom_css_files ["base.css"]
          (config.set config.run_modules ["fastqc"; "star"]
             (config.set config.top_modules [MStr "custom_content"]
                (config.set config.sample_names_ignore ["blank"]
                   (config.set config.kwargs [("kept", PBool true)]
                      ex_defaults)))))).

(** An override object that sets list fields, [strict], [make_pdf] with
    an explicit other template, and the fields that only log. *)
Definition ex_cfg_lists : ClConfig.t :=
  ClConfig.mk
    None (Some false) None (Some true) None None (Some "custom") None None
    None None None (Some "filters.tsv") None None None None None None None
    None (Some false) None (Some true) None (Some true) None None None None
    None None None
    [] ["neg*"] [] ["fastqc"] [] [] [] ["lab.css"]
    [MStr "fastqc"; MDict [("star", PDict [("path_filters", PStr "*.out")])]]
    [PStr ".gz"] [PStr "_trimmed"]
    None None None None None None None None None None
    None (Some [("my_opt", PInt 1)]) None.

(** Discovery or loading of configuration files proper. *)
Definition is_config_loading (e : event) : bool :=
  match e with
  | EvFindUserFiles | EvLoadConfigFile _ _ | EvLoadClConfig _ => true
  | _ => false
  end.

(** An override object with a [replace_names] path, an empty
    [sample_names] path and inline config. *)
Definition ex_cfg_names : ClConfig.t :=
  ClConfig.mk
    None None None None None None None None None
    None (Some "names.tsv") (Some EmptyString) None None None None None None
    None None
    None None None None None None None None None None
    None None None
    [] [] [] [] [] ["lab.yaml"; "run.yaml"] ["title: x"] [] [] [] []
    None None None None None None None None None None
    None None None.


(** ** Reasoning about attributes: frames *)

Lemma get_set_eq (a : config.attr) (v : config.ty a) (c : config.t) :
  config.get a (config.set a v c) = v.
Proof.
  unfold config.get, config.set.
  destruct (config.attr_eq_dec a a) as [e | n]; [ | congruence].
  rewrite <- (eq_rect_eq_dec config.attr_eq_dec). reflexivity.
Qed.

Lemma get_set_ne (a b : config.attr) (v : config.ty b) (c : config.t) :
  a <> b -> config.get a (config.set b v c) = config.get a c.
Proof.
  intros Hne. unfold config.get, config.set.
  destruct (config.attr_eq_dec b a); congruence.
Qed.

Lemma get_setattr_eq (a : config.attr) (v : config.ty a) (w : World) :
  config.get a (conf (setattr a v w)) = v.
Proof. apply get_set_eq. Qed.

Lemma seq_apply (s1 s2 : step) (w : World) : (s1 ;; s2) w = s2 (s1 w).
Proof. reflexivity. Qed.

Lemma preserves_apply a s w :
  preserves a s -> config.get a (conf (s w)) = config.get a (conf w).
Proof. intros H. apply H. Qed.

Lemma preserves_skip a : preserves a skip.
Proof. intros w. reflexivity. Qed.

Lemma preserves_emit a e : preserves a (emit e).
Proof. intros w. reflexivity. Qed.

Lemma preserves_setattr a b (v : config.ty b) :
  a <> b -> preserves a (setattr b v).
Proof. intros Hne w. apply get_set_ne, Hne. Qed.

Lemma preserves_seq a s1 s2 :
  preserves a s1 -> preserves a s2 -> preserves a (s1 ;; s2).
Proof. intros H1 H2 w. rewrite seq_apply, H2, H1. reflexivity. Qed.

Lemma preserves_if_not_None a A (o : option A) (body : A -> step) :
  (forall v, preserves a (body v)) -> preserves a (if_not_None o body).
Proof. intros H. destruct o; [apply H | apply preserves_skip]. Qed.

Lemma preserves_when a (b : bool) s :
  preserves a s -> preserves a (when b s).
Proof. intros H. destruct b; [apply H | apply preserves_skip]. Qed.

Lemma preserves_with_config a (f : config.t -> step) :
  (forall c, preserves a (f c)) -> preserves a (with_config f).
Proof. intros H w. apply H. Qed.

Lemma preserves_for_each a A (l : list A) (body : A -> step) :
  (forall x, preserves a (body x)) -> preserves a (for_each l body).
Proof.
  intros H. induction l as [ | x l IH]; simpl.
  - apply preserves_skip.
  - apply preserves_seq; [apply H | apply IH].
Qed.

Lemma preserves_set_report_top_modules a l :
  preserves a (set_report_top_modules l).
Proof. intros w. reflexivity. Qed.

Lemma preserves_set_report_module_order a l :
  preserves a (set_report_module_order l).
Proof. intros w. reflexivity. Qed.

Lemma preserves_mqc_trigger a name : preserves a (mqc_trigger name).
Proof. intros w. reflexivity. Qed.

Lemma preserves_init_log a b : preserves a (init_log b).
Proof. intros w. reflexivity. Qed.

Create HintDb frame.
Hint Resolve preserves_skip preserves_emit preserves_set_report_top_modules
  preserves_set_report_module_order preserves_mqc_trigger
  preserves_init_log : frame.
Hint Extern 1 (_ <> _) => discriminate : frame.
Hint Extern 1 (preserves _ (logger_debug _)) => apply preserves_emit : frame.
Hint Extern 1 (preserves _ (logger_info _)) => apply preserves_emit : frame.
Hint Extern 1 (preserves _ (load_replace_names _)) =>
  apply preserves_emit : frame.
Hint Extern 1 (preserves _ (load_sample_names _)) =>
  apply preserves_emit : frame.
Hint Extern 1 (preserves _ (load_show_hide _)) =>
  apply preserves_emit : frame.

(** Follow the structure of a statement down to its assignments. *)
Ltac frame_go :=
  cbv beta;
  lazymatch goal with
  | |- preserves _ (seq _ _) => apply preserves_seq; frame_go
  | |- preserves _ (if_not_None _ _) =>
      apply preserves_if_not_None; intro; frame_go
  | |- preserves _ (when _ _) => apply preserves_when; frame_go
  | |- preserves _ (with_config _) =>
      apply preserves_with_config; intro; frame_go
  | |- preserves _ (for_each _ _) =>
      apply preserves_for_each; intro; frame_go
  | |- preserves _ (setattr _ _) =>
      apply preserves_setattr; auto with frame
  | |- preserves _ _ => auto with frame
  end.

Ltac frame := solve [ frame_go ].

(** Strip, from the outside in, the statements that do not assign the
    attribute being read. *)
Ltac peel :=
  repeat match goal with
         | |- context [config.get ?a (conf (?s ?w))] =>
             rewrite (@preserves_apply a s w) by frame
         end.

Lemma finish_config_preserves a cfg :
  a <> config.fn_ignore_files -> a <> config.fn_ignore_dirs ->
  a <> config.fn_ignore_paths -> a <> config.sample_names_ignore ->
  a <> config.sample_names_only_include -> a <> config.kwargs ->
  preserves a (finish_config cfg).
Proof. intros. unfold finish_config, extend_and_prep. frame. Qed.

Lemma set_analysis_dir_preserves a l :
  a <> config.analysis_dir -> preserves a (set_analysis_dir l).
Proof. intros. unfold set_analysis_dir. frame. Qed.

Ltac peel_in H :=
  repeat match type of H with
         | context [config.get ?a (conf (?s ?w))] =>
             rewrite (@preserves_apply a s w) in H by frame
         end.

(** ** The shape of a call *)

Lemma update_config_cases analysis_dir cfg log_to_file print_intro_fn w :
  let c := effective_cfg analysis_dir cfg in
  let w1 := before_check analysis_dir cfg log_to_file print_intro_fn w in
  update_config analysis_dir cfg log_to_file print_intro_fn w =
  match ClConfig.file_list c with
  | Some v =>
      if (1 <? List.length (config.get config.analysis_dir (conf w1)))%nat
      then Raise (RunError file_list_message) w1
      else Ok (finish_config c (setattr config.file_list v w1))
  | None => Ok (finish_config c w1)
  end.
Proof.
  intros c w1. unfold update_config, check_file_list, bind, lift, raise.
  fold c. fold w1. unfold before_check, effective_cfg in w1.
  destruct (ClConfig.file_list c); [ | reflexivity].
  fold (effective_cfg analysis_dir cfg) in w1. fold c in w1.
  change ((reload_config c log_to_file print_intro_fn;;
           overwrite_config_vars c;; set_analysis_dir analysis_dir) w)
    with w1.
  destruct (1 <? List.length (config.get config.analysis_dir (conf w1)))%nat;
    reflexivity.
Qed.

(** Attributes that nothing assigns after line 237 have, when the call
    ends (normally or not), the value they had there. *)
Lemma final_get a analysis_dir cfg log_to_file print_intro_fn w :
  a <> config.analysis_dir -> a <> config.file_list ->
  a <> config.fn_ignore_files -> a <> config.fn_ignore_dirs ->
  a <> config.fn_ignore_paths -> a <> config.sample_names_ignore ->
  a <> config.sample_names_only_include -> a <> config.kwargs ->
  config.get a
    (conf (world_of
       (update_config analysis_dir cfg log_to_file print_intro_fn w))) =
  config.get a
    (conf (after_overwrite analysis_dir cfg log_to_file print_intro_fn w)).
Proof.
  intros. rewrite update_config_cases. cbv zeta.
  assert (Hpre : config.get a
            (conf (before_check analysis_dir cfg log_to_file
                                print_intro_fn w)) =
          config.get a
            (conf (after_overwrite analysis_dir cfg log_to_file
                                   print_intro_fn w))).
  { unfold before_check, after_overwrite. rewrite !seq_apply.
    apply set_analysis_dir_preserves; assumption. }
  destruct (ClConfig.file_list (effective_cfg analysis_dir cfg)).
  - destruct (1 <? _)%nat; cbn [world_of]; [exact Hpre | ].
    rewrite (finish_config_preserves (a:=a)) by assumption.
    rewrite preserves_apply by frame. exact Hpre.
  - cbn [world_of]. rewrite (finish_config_preserves (a:=a)) by assumption.
    exact Hpre.
Qed.

Ltac final :=
  rewrite ?final_get by discriminate;
  unfold after_overwrite, overwrite_config_vars; rewrite !seq_apply.

Ltac final_in H :=
  rewrite ?final_get in H by discriminate;
  unfold after_overwrite, overwrite_config_vars in H;
  rewrite !seq_apply in H.

(** Claim C10.  Whenever [dirs_depth] is set in the override object, the
    call leaves [config.prepend_dirs] true and [config.prepend_dirs_depth]
    equal to the given depth, whatever [prepend_dirs] the same object
    carries (also an explicit [False]): the [dirs_depth] statement runs
    after the [prepend_dirs] one.  This holds whether the call returns or
    raises. *)
Theorem dirs_depth_forces_prepend_dirs
        analysis_dir cfg log_to_file print_intro_fn w d :
  ClConfig.dirs_depth (effective_cfg analysis_dir cfg) = Some d ->
  let w' := world_of
              (update_config analysis_dir cfg log_to_file print_intro_fn w) in
  config.get config.prepend_dirs (conf w') = true /\
  config.get config.prepend_dirs_depth (conf w') = d.
Proof.
  intros Hd w'. subst w'. split; final; peel; rewrite Hd;
    unfold if_not_None; rewrite seq_apply; peel; apply get_setattr_eq.
Qed.

Lemma opt_string_eqb_eq a b : opt_string_eqb a b = true <-> a = b.
Proof.
  destruct a as [x | ], b as [y | ]; simpl; try (split; congruence).
  rewrite String.eqb_eq. split; congruence.
Qed.

Lemma str_in_In x l : str_in x l = true <-> In x l.
Proof.
  unfold str_in. rewrite existsb_exists. split.
  - intros [y [Hy He]]. apply String.eqb_eq in He. subst. exact Hy.
  - intros H. exists x. split; [exact H | apply String.eqb_refl].
Qed.

Lemma count_occ_snoc_absent (x : string) l :
  ~ In x l -> count_occ string_dec (l ++ [x]) x = 1.
Proof.
  intros H. rewrite count_occ_app.
  rewrite (proj1 (count_occ_not_In string_dec l x) H). simpl.
  destruct (string_dec x x); congruence.
Qed.

(** Claim C4.  If the template is "simple" when the call ends (from the
    [template] field, from a true [make_pdf], or from a config file), then
    [config.plots_force_flat] and [config.simple_output] are both true. *)
Theorem simple_template_forces_flat_plots
        analysis_dir cfg log_to_file print_intro_fn w :
  let w' := world_of
              (update_config analysis_dir cfg log_to_file print_intro_fn w) in
  config.get config.template (conf w') = Some "simple" ->
  config.get config.plots_force_flat (conf w') = true /\
  config.get config.simple_output (conf w') = true.
Proof.
  intros w' H. subst w'. final_in H. peel_in H.
  split; final; peel; unfold with_config at 1;
    apply opt_string_eqb_eq in H; rewrite H; unfold when;
    rewrite seq_apply; peel; apply get_setattr_eq.
Qed.

(** Claim C5, as amended.  When [ai_summary_full] is set to [b], the call
    leaves both [config.ai_summary] and [config.ai_summary_full] equal to
    [b]: the plain flag follows the full one (true for [True], false for
    [False]) and is not forced to true. *)
Theorem ai_summary_full_sets_ai_summary
        analysis_dir cfg log_to_file print_intro_fn w b :
  ClConfig.ai_summary_full (effective_cfg analysis_dir cfg) = Some b ->
  let w' := world_of
              (update_config analysis_dir cfg log_to_file print_intro_fn w) in
  config.get config.ai_summary (conf w') = b /\
  config.get config.ai_summary_full (conf w') = b.
Proof.
  intros Hb w'. subst w'. split; final; peel; rewrite Hb;
    unfold if_not_None; rewrite seq_apply; peel; apply get_setattr_eq.
Qed.

(** Claim C6, as amended.  When [profile_memory] is set to [b], the call
    leaves both [config.profile_runtime] and [config.profile_memory] equal
    to [b]: the runtime flag follows the memory one and is not forced to
    true. *)
Theorem profile_memory_sets_profile_runtime
        analysis_dir cfg log_to_file print_intro_fn w b :
  ClConfig.profile_memory (effective_cfg analysis_dir cfg) = Some b ->
  let w' := world_of
              (update_config analysis_dir cfg log_to_file print_intro_fn w) in
  config.get config.profile_runtime (conf w') = b /\
  config.get config.profile_memory (conf w') = b.
Proof.
  intros Hb w'. subst w'. split; final; peel; rewrite Hb;
    unfold if_not_None; rewrite seq_apply; peel; apply get_setattr_eq.
Qed.

(** The export formats after one call, from those the config files left. *)
Lemma export_plot_formats_final
      analysis_dir cfg log_to_file print_intro_fn w :
  let c := effective_cfg analysis_dir cfg in
  let w0 := reload_config c log_to_file print_intro_fn w in
  let w' := world_of
              (update_config analysis_dir cfg log_to_file print_intro_fn w) in
  let l0 := config.get config.export_plot_formats (conf w0) in
  config.get config.export_plot_formats (conf w') =
  if config.get config.development (conf w') && negb (str_in "png" l0)
  then l0 ++ ["png"] else l0.
Proof.
  intros c w0 w' l0. subst w' l0.
  assert (Hdev :
    config.get config.development
      (conf (world_of
         (update_config analysis_dir cfg log_to_file print_intro_fn w))) =
    config.get config.development
      (conf (after_overwrite analysis_dir cfg log_to_file
                             print_intro_fn w))).
  { apply final_get; discriminate. }
  rewrite Hdev. clear Hdev. final. fold c. fold w0.
  match goal with
  | |- context [with_config ?f ?x] => set (w1 := x); set (body := f)
  end.
  assert (Hl : config.get config.export_plot_formats (conf w1) =
               config.get config.export_plot_formats (conf w0)).
  { subst w1. peel. reflexivity. }
  unfold with_config. subst body. cbv beta. rewrite Hl.
  destruct (config.get config.development (conf w1)
            && negb (str_in "png"
                       (config.get config.export_plot_formats (conf w0))))
    eqn:E; unfold when.
  - rewrite !get_setattr_eq. rewrite preserves_apply by frame.
    rewrite E. reflexivity.
  - unfold skip. rewrite E. exact Hl.
Qed.

(** Claim C8.  In a call that ends with [config.development] true and
    whose export formats, as left by the defaults and config files, lack
    "png", the final list holds "png" exactly once.  The same holds for a
    second call made on the world the first one left, and a call never
    raises the number of "png" entries above one. *)
Theorem png_appended_once
        analysis_dir cfg log_to_file print_intro_fn
        analysis_dir2 cfg2 log_to_file2 print_intro_fn2 w :
  let pass1 := update_config analysis_dir cfg log_to_file print_intro_fn in
  let pass2 :=
    update_config analysis_dir2 cfg2 log_to_file2 print_intro_fn2 in
  let loaded1 :=
    reload_config (effective_cfg analysis_dir cfg)
                  log_to_file print_intro_fn w in
  let w1 := world_of (pass1 w) in
  let loaded2 :=
    reload_config (effective_cfg analysis_dir2 cfg2)
                  log_to_file2 print_intro_fn2 w1 in
  let w2 := world_of (pass2 w1) in
  let png_count x :=
    count_occ string_dec
              (config.get config.export_plot_formats (conf x)) "png" in
  (config.get config.development (conf w1) = true ->
   ~ In "png" (config.get config.export_plot_formats (conf loaded1)) ->
   png_count w1 = 1) /\
  (config.get config.development (conf w2) = true ->
   ~ In "png" (config.get config.export_plot_formats (conf loaded2)) ->
   png_count w2 = 1) /\
  (png_count loaded2 <= 1 -> png_count w2 <= 1).
Proof.
  cbv zeta. repeat split.
  - intros Hdev Hin. rewrite export_plot_formats_final. cbv zeta.
    rewrite Hdev. rewrite <- str_in_In in Hin.
    apply not_true_is_false in Hin. rewrite Hin. simpl andb. cbv iota.
    apply count_occ_snoc_absent. rewrite <- str_in_In. congruence.
  - intros Hdev Hin. rewrite export_plot_formats_final. cbv zeta.
    rewrite Hdev. rewrite <- str_in_In in Hin.
    apply not_true_is_false in Hin. rewrite Hin. simpl andb. cbv iota.
    apply count_occ_snoc_absent. rewrite <- str_in_In. congruence.
  - intros Hle. rewrite export_plot_formats_final. cbv zeta.
    destruct (config.get config.development _ && negb (str_in "png" _))
      eqn:E; [ | exact Hle].
    apply andb_prop in E. destruct E as [_ E].
    apply negb_true_iff in E.
    rewrite count_occ_snoc_absent; [lia | ].
    rewrite <- str_in_In. congruence.
Qed.

Lemma overwrite_config_vars_preserves a cfg :
  assigned_by_overwrite a = false ->
  preserves a (overwrite_config_vars cfg).
Proof.
  intros H. unfold overwrite_config_vars.
  destruct a; try discriminate H; frame.
Qed.

Lemma before_check_ignore_lists
      a analysis_dir cfg log_to_file print_intro_fn w :
  assigned_by_overwrite a = false -> a <> config.analysis_dir ->
  config.get a
    (conf (before_check analysis_dir cfg log_to_file print_intro_fn w)) =
  config.get a
    (conf (reload_config (effective_cfg analysis_dir cfg)
                         log_to_file print_intro_fn w)).
Proof.
  intros H Hne. unfold before_check. rewrite !seq_apply.
  rewrite set_analysis_dir_preserves by assumption.
  apply overwrite_config_vars_preserves, H.
Qed.

Lemma update_config_Ok analysis_dir cfg log_to_file print_intro_fn w w' :
  update_config analysis_dir cfg log_to_file print_intro_fn w = Ok w' ->
  let c := effective_cfg analysis_dir cfg in
  let w1 := before_check analysis_dir cfg log_to_file print_intro_fn w in
  w' = finish_config c
         (if_not_None (ClConfig.file_list c)
                      (fun v => setattr config.file_list v) w1).
Proof.
  rewrite update_config_cases. cbv zeta.
  destruct (ClConfig.file_list _); [destruct (1 <? _)%nat | ];
    intros H; inversion H; reflexivity.
Qed.

Lemma extend_and_prep_ignore cfg w :
  let ext a := config.get a (conf (extend_and_prep cfg w)) in
  ext config.fn_ignore_files =
    config.get config.fn_ignore_files (conf w) ++ ClConfig.ignore cfg /\
  ext config.fn_ignore_dirs =
    config.get config.fn_ignore_dirs (conf w) ++ ClConfig.ignore cfg /\
  ext config.fn_ignore_paths =
    config.get config.fn_ignore_paths (conf w) ++ ClConfig.ignore cfg.
Proof.
  cbv zeta. unfold extend_and_prep. rewrite !seq_apply.
  destruct (ClConfig.ignore cfg) as [ | x l] eqn:E.
  - repeat split; peel; rewrite app_nil_r; reflexivity.
  - repeat split; peel; cbn [List.length Nat.ltb Nat.leb when];
      rewrite !seq_apply; peel; unfold with_config at 1;
      rewrite get_setattr_eq; peel; reflexivity.
Qed.

(** Claim C7.  After a call that returns, each of [config.fn_ignore_files],
    [config.fn_ignore_dirs] and [config.fn_ignore_paths] is the list the
    defaults and config files left, in its order, followed by the entries
    of the override object's [ignore] list: existing first, new
    appended. *)
Theorem ignore_lists_extended
        analysis_dir cfg log_to_file print_intro_fn w w' :
  update_config analysis_dir cfg log_to_file print_intro_fn w = Ok w' ->
  let c := effective_cfg analysis_dir cfg in
  let w0 := reload_config c log_to_file print_intro_fn w in
  config.get config.fn_ignore_files (conf w') =
    config.get config.fn_ignore_files (conf w0) ++ ClConfig.ignore c /\
  config.get config.fn_ignore_dirs (conf w') =
    config.get config.fn_ignore_dirs (conf w0) ++ ClConfig.ignore c /\
  config.get config.fn_ignore_paths (conf w') =
    config.get config.fn_ignore_paths (conf w0) ++ ClConfig.ignore c.
Proof.
  intros H c w0. apply update_config_Ok in H. cbv zeta in H. fold c in H.
  subst w'. unfold finish_config. rewrite !seq_apply.
  match goal with
  | |- context [extend_and_prep c ?x] =>
      destruct (extend_and_prep_ignore c x) as (Hf & Hd & Hp)
  end.
  repeat split; peel;
    [rewrite Hf | rewrite Hd | rewrite Hp]; f_equal; peel;
    apply before_check_ignore_lists; (reflexivity || discriminate).
Qed.

Lemma before_check_analysis_dir
      analysis_dir cfg log_to_file print_intro_fn w :
  config.get config.analysis_dir
    (conf (before_check analysis_dir cfg log_to_file print_intro_fn w)) =
  match analysis_dir with
  | [] => config.get config.analysis_dir
            (conf (reload_config (effective_cfg analysis_dir cfg)
                                 log_to_file print_intro_fn w))
  | _ :: _ => analysis_dir
  end.
Proof.
  unfold before_check. rewrite !seq_apply. unfold set_analysis_dir.
  destruct analysis_dir as [ | p l]; unfold truthy_list, when.
  - unfold skip. apply overwrite_config_vars_preserves. reflexivity.
  - apply get_setattr_eq.
Qed.

(** Claim C2.  A call raises if and only if [file_list] is set (is not
    [None]) and the resulting [config.analysis_dir] (the positional
    arguments when there are any, else the list already in [config]) has
    more than one entry; what it raises is the file-list [RunError].  With
    [file_list=True] and exactly one entry it returns with
    [config.file_list] true, and it returns whenever [file_list] is
    unset. *)
Theorem file_list_error_iff
        analysis_dir cfg log_to_file print_intro_fn w :
  let c := effective_cfg analysis_dir cfg in
  let run := update_config analysis_dir cfg log_to_file print_intro_fn in
  let dirs :=
    match analysis_dir with
    | [] => config.get config.analysis_dir
              (conf (reload_config c log_to_file print_intro_fn w))
    | _ :: _ => analysis_dir
    end in
  ((exists e w', run w = Raise e w') <->
   (ClConfig.file_list c <> None /\ 1 < List.length dirs)) /\
  (forall e w', run w = Raise e w' -> e = RunError file_list_message) /\
  (ClConfig.file_list c = Some true -> List.length dirs = 1 ->
   exists w', run w = Ok w' /\
              config.get config.file_list (conf w') = true) /\
  (ClConfig.file_list c = None -> exists w', run w = Ok w').
Proof.
  intros c run dirs. subst run.
  pose proof (update_config_cases analysis_dir cfg log_to_file
                                  print_intro_fn w) as Hc.
  cbv zeta in Hc. fold c in Hc.
  rewrite before_check_analysis_dir in Hc. fold c in Hc. fold dirs in Hc.
  rewrite Hc. clear Hc.
  split; [split | split; [ | split]].
  - intros (e & w' & H).
    destruct (ClConfig.file_list c); [ | discriminate].
    destruct (1 <? List.length dirs)%nat eqn:E; [ | discriminate].
    split; [discriminate | apply Nat.ltb_lt, E].
  - intros [Hset Hlen]. destruct (ClConfig.file_list c); [ | congruence].
    apply Nat.ltb_lt in Hlen. rewrite Hlen. eauto.
  - intros e w' H. destruct (ClConfig.file_list c); [ | discriminate].
    destruct (1 <? List.length dirs)%nat; [ | discriminate].
    inversion H. reflexivity.
  - intros Hfl Hlen. rewrite Hfl. rewrite Hlen. cbn [Nat.ltb Nat.leb].
    eexists. split; [reflexivity | ].
    rewrite (finish_config_preserves (a:=config.file_list))
      by discriminate.
    apply get_setattr_eq.
  - intros Hfl. rewrite Hfl. eauto.
Qed.

(** ** Determinism in the [config] namespace *)

Lemma conf_only_skip : conf_only skip.
Proof. intros w1 w2 H. exact H. Qed.

Lemma conf_only_emit e : conf_only (emit e).
Proof. intros w1 w2 H. exact H. Qed.

Lemma conf_only_setattr a (v : config.ty a) : conf_only (setattr a v).
Proof. intros w1 w2 H. simpl. rewrite H. reflexivity. Qed.

Lemma conf_only_on_config f : conf_only (on_config f).
Proof. intros w1 w2 H. simpl. rewrite H. reflexivity. Qed.

Lemma conf_only_seq s1 s2 :
  conf_only s1 -> conf_only s2 -> conf_only (s1 ;; s2).
Proof. intros H1 H2 w1 w2 H. apply H2, H1, H. Qed.

Lemma conf_only_if_not_None A (o : option A) (body : A -> step) :
  (forall v, conf_only (body v)) -> conf_only (if_not_None o body).
Proof. intros H. destruct o; [apply H | apply conf_only_skip]. Qed.

Lemma conf_only_when (b : bool) s : conf_only s -> conf_only (when b s).
Proof. intros H. destruct b; [apply H | apply conf_only_skip]. Qed.

Lemma conf_only_with_config (f : config.t -> step) :
  (forall c, conf_only (f c)) -> conf_only (with_config f).
Proof.
  intros H w1 w2 E. unfold with_config. rewrite E. apply H, E.
Qed.

Lemma conf_only_for_each A (l : list A) (body : A -> step) :
  (forall x, conf_only (body x)) -> conf_only (for_each l body).
Proof.
  intros H. induction l as [ | x l IH]; simpl.
  - apply conf_only_skip.
  - apply conf_only_seq; [apply H | apply IH].
Qed.

Lemma conf_only_set_report_top_modules l :
  conf_only (set_report_top_modules l).
Proof. intros w1 w2 H. exact H. Qed.

Lemma conf_only_set_report_module_order l :
  conf_only (set_report_module_order l).
Proof. intros w1 w2 H. exact H. Qed.

Create HintDb det.
Hint Resolve conf_only_skip conf_only_emit conf_only_setattr
  conf_only_on_config conf_only_set_report_top_modules
  conf_only_set_report_module_order : det.
Hint Extern 1 (conf_only (logger_debug _)) => apply conf_only_emit : det.
Hint Extern 1 (conf_only (logger_info _)) => apply conf_only_emit : det.
Hint Extern 1 (conf_only (load_replace_names _)) =>
  apply conf_only_emit : det.
Hint Extern 1 (conf_only (load_sample_names _)) =>
  apply conf_only_emit : det.
Hint Extern 1 (conf_only (load_show_hide _)) => apply conf_only_emit : det.
Hint Extern 1 (conf_only (mqc_trigger _)) =>
  apply conf_only_with_config; intro; apply conf_only_emit : det.
Hint Extern 1 (conf_only (init_log _)) =>
  apply conf_only_with_config; intro; apply conf_only_emit : det.

Ltac det_go :=
  cbv beta;
  lazymatch goal with
  | |- conf_only (seq _ _) => apply conf_only_seq; det_go
  | |- conf_only (if_not_None _ _) =>
      apply conf_only_if_not_None; intro; det_go
  | |- conf_only (when _ _) => apply conf_only_when; det_go
  | |- conf_only (with_config _) =>
      apply conf_only_with_config; intro; det_go
  | |- conf_only (for_each _ _) =>
      apply conf_only_for_each; intro; det_go
  | |- conf_only _ => auto with det
  end.

Ltac det := solve [ det_go ].

Lemma reset_verbosity_conf cfg w1 w2 :
  conf (reset_verbosity cfg w1) = conf (reset_verbosity cfg w2).
Proof.
  unfold reset_verbosity, load_defaults. rewrite !seq_apply.
  repeat match goal with
         | |- conf (?s ?x) = conf (?s ?y) =>
             lazymatch s with
             | on_config _ => fail
             | _ => assert (Hs : conf_only s) by det; apply Hs; clear Hs
             end
         end.
  reflexivity.
Qed.

Lemma before_check_conf analysis_dir cfg log_to_file print_intro_fn w1 w2 :
  conf (before_check analysis_dir cfg log_to_file print_intro_fn w1) =
  conf (before_check analysis_dir cfg log_to_file print_intro_fn w2).
Proof.
  unfold before_check, reload_config. rewrite !seq_apply.
  assert (Hs : forall s x y, conf_only s -> conf x = conf y ->
                             conf (s x) = conf (s y))
    by (intros s x y H; apply H).
  apply Hs; [unfold set_analysis_dir; det | ].
  apply Hs; [unfold overwrite_config_vars; det | ].
  apply Hs; [unfold load_user_configs, config_find_user_files,
             config_load_config_file, config_load_cl_config; det | ].
  apply Hs; [det | ].
  apply Hs; [unfold start_logging; det | ].
  apply reset_verbosity_conf.
Qed.

Lemma finish_config_conf_only cfg : conf_only (finish_config cfg).
Proof. unfold finish_config, extend_and_prep. det. Qed.

Lemma finish_config_report cfg w :
  report_top_modules (finish_config cfg w) =
    map prep_module (config.get config.top_modules (conf w)) /\
  report_module_order (finish_config cfg w) =
    map prep_module (config.get config.module_order (conf w)).
Proof.
  unfold finish_config, extend_and_prep. rewrite !seq_apply.
  destruct (ClConfig.unknown_options cfg) as [[ | kv d] | ];
    cbn [truthy_dict truthy_list when if_not_None skip mqc_trigger
         with_config emit report_top_modules report_module_order
         setattr set_report_module_order set_report_top_modules conf];
    split; f_equal; peel; reflexivity.
Qed.

(** The outcome of a call does not depend on the world it starts from,
    up to the trace (and to [report] when the call raises). *)
Lemma update_config_start_independent
      analysis_dir cfg log_to_file print_intro_fn wa wb :
  let run := update_config analysis_dir cfg log_to_file print_intro_fn in
  match run wa, run wb with
  | Ok a, Ok b =>
      conf a = conf b /\
      report_top_modules a = report_top_modules b /\
      report_module_order a = report_module_order b
  | Raise ea a, Raise eb b => ea = eb /\ conf a = conf b
  | _, _ => False
  end.
Proof.
  cbv zeta. rewrite !update_config_cases. cbv zeta.
  set (c := effective_cfg analysis_dir cfg).
  pose proof (before_check_conf analysis_dir cfg log_to_file
                                print_intro_fn wa wb) as E.
  set (a := before_check analysis_dir cfg log_to_file print_intro_fn wa)
    in *.
  set (b := before_check analysis_dir cfg log_to_file print_intro_fn wb)
    in *.
  clearbody a b. rewrite E.
  assert (Hfin : forall x y, conf x = conf y ->
            conf (finish_config c x) = conf (finish_config c y) /\
            report_top_modules (finish_config c x) =
              report_top_modules (finish_config c y) /\
            report_module_order (finish_config c x) =
              report_module_order (finish_config c y)).
  { intros x y Exy.
    destruct (finish_config_report c x) as [-> ->].
    destruct (finish_config_report c y) as [-> ->].
    rewrite Exy. split; [ | split; reflexivity].
    apply finish_config_conf_only, Exy. }
  destruct (ClConfig.file_list c) as [v | ]; [ | apply Hfin, E].
  destruct (1 <? List.length (config.get config.analysis_dir (conf b)))%nat.
  - split; [reflexivity | exact E].
  - apply Hfin, conf_only_setattr, E.
Qed.

(** Claim C3.  Calling [update_config] twice with the same arguments
    leaves the same [config] namespace after the second call as after the
    first, the same [report] module lists when the calls return, and the
    same exception when they raise: the second call starts again from the
    defaults. *)
Theorem update_config_twice_same
        analysis_dir cfg log_to_file print_intro_fn w :
  let run := update_config analysis_dir cfg log_to_file print_intro_fn in
  let r1 := run w in
  let r2 := run (world_of r1) in
  conf (world_of r2) = conf (world_of r1) /\
  (forall w1, r1 = Ok w1 ->
     exists w2, r2 = Ok w2 /\
                report_top_modules w2 = report_top_modules w1 /\
                report_module_order w2 = report_module_order w1) /\
  (forall e w1, r1 = Raise e w1 -> exists w2, r2 = Raise e w2).
Proof.
  cbv zeta.
  pose proof (update_config_start_independent
                analysis_dir cfg log_to_file print_intro_fn
                (world_of (update_config analysis_dir cfg log_to_file
                                         print_intro_fn w)) w) as H.
  cbv zeta in H.
  destruct (update_config analysis_dir cfg log_to_file print_intro_fn w)
    as [w1 | e w1] eqn:E1;
    destruct (update_config analysis_dir cfg log_to_file print_intro_fn
                            (world_of _)) as [w2 | e2 w2] eqn:E2;
    try contradiction.
  - destruct H as (Hc & Ht & Hm). cbn [world_of].
    split; [exact Hc | split].
    + intros ? Heq. inversion Heq. subst. eauto.
    + intros ? ? Heq. discriminate Heq.
  - destruct H as (He & Hc). cbn [world_of].
    split; [exact Hc | split].
    + intros ? Heq. discriminate Heq.
    + intros ? ? Heq. inversion Heq. subst. eauto.
Qed.

(** ** The trace of collaborator calls *)

Lemma emits_skip P : emits P skip.
Proof. intros w. exists []. rewrite app_nil_r. auto. Qed.

Lemma emits_emit (P : event -> Prop) e : P e -> emits P (emit e).
Proof. intros H w. exists [e]. auto. Qed.

Lemma emits_setattr P a (v : config.ty a) : emits P (setattr a v).
Proof. intros w. exists []. simpl. rewrite app_nil_r. auto. Qed.

Lemma emits_on_config P f : emits P (on_config f).
Proof. intros w. exists []. simpl. rewrite app_nil_r. auto. Qed.

Lemma emits_set_report_top_modules P l : emits P (set_report_top_modules l).
Proof. intros w. exists []. simpl. rewrite app_nil_r. auto. Qed.

Lemma emits_set_report_module_order P l :
  emits P (set_report_module_order l).
Proof. intros w. exists []. simpl. rewrite app_nil_r. auto. Qed.

Lemma emits_seq P s1 s2 : emits P s1 -> emits P s2 -> emits P (s1 ;; s2).
Proof.
  intros H1 H2 w. rewrite seq_apply.
  destruct (H1 w) as (e1 & E1 & F1). destruct (H2 (s1 w)) as (e2 & E2 & F2).
  exists (e1 ++ e2). rewrite E2, E1, app_assoc.
  split; [reflexivity | apply Forall_app; auto].
Qed.

Lemma emits_if_not_None P A (o : option A) (body : A -> step) :
  (forall v, emits P (body v)) -> emits P (if_not_None o body).
Proof. intros H. destruct o; [apply H | apply emits_skip]. Qed.

Lemma emits_when P (b : bool) s : emits P s -> emits P (when b s).
Proof. intros H. destruct b; [apply H | apply emits_skip]. Qed.

Lemma emits_with_config P (f : config.t -> step) :
  (forall c, emits P (f c)) -> emits P (with_config f).
Proof. intros H w. apply H. Qed.

Lemma emits_for_each P A (l : list A) (body : A -> step) :
  (forall x, emits P (body x)) -> emits P (for_each l body).
Proof.
  intros H. induction l as [ | x l IH]; simpl.
  - apply emits_skip.
  - apply emits_seq; [apply H | apply IH].
Qed.

Create HintDb trace.
Hint Resolve emits_skip emits_setattr emits_on_config
  emits_set_report_top_modules emits_set_report_module_order : trace.

Ltac event_ok :=
  first [ reflexivity | split; reflexivity ].

Ltac emits_go :=
  cbv beta;
  lazymatch goal with
  | |- emits _ (seq _ _) => apply emits_seq; emits_go
  | |- emits _ (if_not_None _ _) => apply emits_if_not_None; intro; emits_go
  | |- emits _ (when _ _) => apply emits_when; emits_go
  | |- emits _ (with_config _) => apply emits_with_config; intro; emits_go
  | |- emits _ (for_each _ _) => apply emits_for_each; intro; emits_go
  | |- emits _ (emit _) => apply emits_emit; event_ok
  | |- emits _ (logger_debug _) => apply emits_emit; event_ok
  | |- emits _ (logger_info _) => apply emits_emit; event_ok
  | |- emits _ (load_replace_names _) => apply emits_emit; event_ok
  | |- emits _ (load_sample_names _) => apply emits_emit; event_ok
  | |- emits _ (load_show_hide _) => apply emits_emit; event_ok
  | |- emits _ (init_log _) =>
      apply emits_with_config; intro; apply emits_emit; event_ok
  | |- emits _ _ => auto with trace
  end.

Ltac emits_solve := solve [ emits_go ].

Lemma reset_verbosity_emits cfg :
  emits not_hook_nor_loading (reset_verbosity cfg).
Proof. unfold reset_verbosity, load_defaults. emits_solve. Qed.

Lemma start_logging_emits log_to_file print_intro_fn :
  emits not_hook_nor_loading (start_logging log_to_file print_intro_fn).
Proof. unfold start_logging. emits_solve. Qed.

Lemma start_logging_init_log log_to_file print_intro_fn w :
  exists evs,
    trace (start_logging log_to_file print_intro_fn w) =
    trace w ++ EvInitLog log_to_file (conf w) :: evs.
Proof.
  unfold start_logging. rewrite seq_apply.
  match goal with
  | |- context [trace (?s (init_log _ _))] =>
      assert (Hs : emits not_hook_nor_loading s) by emits_solve;
      destruct (Hs (init_log log_to_file w)) as (evs & E & _)
  end.
  exists evs. rewrite E. unfold init_log, with_config, emit. simpl.
  rewrite <- app_assoc. reflexivity.
Qed.

Lemma load_user_configs_emits cfg : emits not_hook (load_user_configs cfg).
Proof.
  unfold load_user_configs, config_find_user_files,
    config_load_config_file, config_load_cl_config.
  emits_solve.
Qed.

Lemma overwrite_config_vars_emits cfg :
  emits not_hook (overwrite_config_vars cfg).
Proof. unfold overwrite_config_vars. emits_solve. Qed.

Lemma extend_and_prep_emits cfg : emits not_hook (extend_and_prep cfg).
Proof. unfold extend_and_prep. emits_solve. Qed.

Lemma mqc_trigger_trace name w :
  trace (mqc_trigger name w) = trace w ++ [EvHook name (conf w)] /\
  conf (mqc_trigger name w) = conf w.
Proof. split; reflexivity. Qed.

(** The trace up to the file-list check. *)
Lemma before_check_trace analysis_dir cfg log_to_file print_intro_fn w :
  exists pre mid seen0 seen,
    trace (before_check analysis_dir cfg log_to_file print_intro_fn w) =
      trace w ++ pre ++ [EvHook "before_config" seen] ++ mid /\
    Forall not_hook_nor_loading pre /\
    In (EvInitLog log_to_file seen0) pre /\
    Forall not_hook mid.
Proof.
  unfold before_check, reload_config. rewrite !seq_apply.
  set (c := effective_cfg analysis_dir cfg).
  destruct (reset_verbosity_emits c w) as (e1 & E1 & F1).
  set (w1 := reset_verbosity c w) in *.
  destruct (start_logging_emits log_to_file print_intro_fn w1)
    as (e2 & E2 & F2).
  destruct (start_logging_init_log log_to_file print_intro_fn w1)
    as (e2' & E2').
  set (w2 := start_logging log_to_file print_intro_fn w1) in *.
  destruct (mqc_trigger_trace "before_config" w2) as (E3 & _).
  set (w3 := mqc_trigger "before_config" w2) in *.
  destruct (load_user_configs_emits c w3) as (e4 & E4 & F4).
  set (w4 := load_user_configs c w3) in *.
  destruct (overwrite_config_vars_emits c w4) as (e5 & E5 & F5).
  set (w5 := overwrite_config_vars c w4) in *.
  assert (E6 : trace (set_analysis_dir analysis_dir w5) = trace w5)
    by (unfold set_analysis_dir; destruct analysis_dir; reflexivity).
  exists (e1 ++ e2), (e4 ++ e5), (conf w1), (conf w2).
  rewrite E6, E5, E4, E3, E2, E1. repeat split.
  - rewrite <- !app_assoc. reflexivity.
  - apply Forall_app. auto.
  - apply in_or_app. right.
    rewrite E2 in E2'. apply app_inv_head in E2'. rewrite E2'.
    left. reflexivity.
  - apply Forall_app. auto.
Qed.

(** Claim C9.  The calls a returning pass adds to the trace are: a
    segment with no hook and no config-file discovery or loading, which
    contains the logger initialisation; the "before_config" hook; a
    segment with no hook; and last "config_loaded" then "execution_start",
    both seeing the final [config].  A pass that raises stops before the
    two closing hooks. *)
Theorem lifecycle_events_order
        analysis_dir cfg log_to_file print_intro_fn w :
  match update_config analysis_dir cfg log_to_file print_intro_fn w with
  | Ok w' =>
      exists pre mid seen0 seen,
        trace w' =
          trace w ++ pre ++ [EvHook "before_config" seen] ++ mid
          ++ [EvHook "config_loaded" (conf w');
              EvHook "execution_start" (conf w')] /\
        Forall not_hook_nor_loading pre /\
        In (EvInitLog log_to_file seen0) pre /\
        Forall not_hook mid
  | Raise _ w' =>
      exists pre mid seen0 seen,
        trace w' =
          trace w ++ pre ++ [EvHook "before_config" seen] ++ mid /\
        Forall not_hook_nor_loading pre /\
        In (EvInitLog log_to_file seen0) pre /\
        Forall not_hook mid
  end.
Proof.
  rewrite update_config_cases. cbv zeta.
  destruct (before_check_trace analysis_dir cfg log_to_file
                               print_intro_fn w)
    as (pre & mid & seen0 & seen & E & Fpre & Hin & Fmid).
  set (b := before_check analysis_dir cfg log_to_file print_intro_fn w)
    in *.
  set (c := effective_cfg analysis_dir cfg).
  assert (Hfin : forall x, trace x = trace b ->
    exists pre mid seen0 seen,
      trace (finish_config c x) =
        trace w ++ pre ++ [EvHook "before_config" seen] ++ mid
        ++ [EvHook "config_loaded" (conf (finish_config c x));
            EvHook "execution_start" (conf (finish_config c x))] /\
      Forall not_hook_nor_loading pre /\
      In (EvInitLog log_to_file seen0) pre /\
      Forall not_hook mid).
  { intros x Ex. unfold finish_config. rewrite !seq_apply.
    destruct (extend_and_prep_emits c x) as (e7 & E7 & F7).
    set (x1 := extend_and_prep c x) in *.
    exists pre, (mid ++ e7), seen0, seen.
    repeat split; [ | assumption | assumption | apply Forall_app; auto].
    cbn [mqc_trigger with_config emit trace conf].
    rewrite E7, Ex, E. rewrite <- !app_assoc. reflexivity. }
  destruct (ClConfig.file_list c) as [v | ].
  - destruct (1 <? List.length (config.get config.analysis_dir (conf b)))%nat.
    + exists pre, mid, seen0, seen. auto.
    + apply Hfin. reflexivity.
  - apply Hfin. reflexivity.
Qed.

(** ** Field-by-field application of the override object *)

Lemma world_of_Ok r w' : r = Ok w' -> w' = world_of r.
Proof. intros ->. reflexivity. Qed.

(** After [peel], the goal reads the target at the statement of the field
    itself, whose guard [o] is destructed here. *)
Ltac own_statement o :=
  destruct o;
  cbn [if_not_None option_map];
  [ rewrite ?seq_apply; peel; rewrite get_setattr_eq; reflexivity
  | unfold skip; peel; reflexivity ].

Lemma late_field_applied
      analysis_dir cfg log_to_file print_intro_fn w (f : opt_field) :
  let c := effective_cfg analysis_dir cfg in
  let w' := world_of
              (update_config analysis_dir cfg log_to_file print_intro_fn w) in
  applied_early f = false -> f <> F_file_list ->
  overridden f c (conf w') = false ->
  config.get (target f) (conf w') =
  match assigned f c with
  | Some v => v
  | None => config.get (target f)
              (conf (reload_config c log_to_file print_intro_fn w))
  end.
Proof.
  intros c w' Hearly Hfl Hov. subst w'.
  destruct f; try discriminate Hearly; try congruence;
    cbn [target assigned]; cbn [overridden] in Hov;
    try (final_in Hov; peel_in Hov);
    final; fold c; fold c in Hov.
  all: peel.
  all: try match goal with
           | H : is_not_None ?o = false |- _ =>
               destruct o; [discriminate H | ];
               cbn [if_not_None]; unfold skip at 1; peel
           | H : truthy_bool ?o = false |- _ =>
               rewrite H; cbn [when]; unfold skip at 1; peel
           | H : opt_string_eqb _ _ = false |- _ =>
               unfold with_config at 1; rewrite H; cbn [when];
               unfold skip at 1; peel
           end.
  all: match goal with
       | |- context [if_not_None ?o _ _] => own_statement o
       end.
Qed.

Lemma early_field_applied cfg w (f : opt_field) :
  applied_early f = true ->
  config.get (target f) (conf (reset_verbosity cfg w)) =
  match assigned f cfg with
  | Some v => v
  | None => config.get (target f) defaults
  end.
Proof.
  intros Hearly.
  destruct f; try discriminate Hearly; cbn [target assigned];
    unfold reset_verbosity, load_defaults; rewrite !seq_apply; peel;
    match goal with
    | |- context [if_not_None ?o _ _] =>
        destruct o; cbn [if_not_None option_map];
        [ rewrite get_setattr_eq; reflexivity
        | unfold skip; peel; reflexivity ]
    end.
Qed.

Lemma file_list_applied
      analysis_dir cfg log_to_file print_intro_fn w w' :
  update_config analysis_dir cfg log_to_file print_intro_fn w = Ok w' ->
  let c := effective_cfg analysis_dir cfg in
  config.get config.file_list (conf w') =
  match ClConfig.file_list c with
  | Some v => v
  | None => config.get config.file_list
              (conf (reload_config c log_to_file print_intro_fn w))
  end.
Proof.
  intros H c. apply update_config_Ok in H. cbv zeta in H. fold c in H.
  subst w'.
  rewrite (finish_config_preserves (a:=config.file_list)) by discriminate.
  destruct (ClConfig.file_list c); cbn [if_not_None].
  - apply get_setattr_eq.
  - unfold skip. apply before_check_ignore_lists;
      [reflexivity | discriminate].
Qed.

(** Claim C1, as amended.  After a call that returns, for every field
    guarded by [is not None] whose target no later derivation assigns on
    behalf of another field: if the field is unset the target keeps the
    value left by the defaults and config files, and if it is set (to any
    value, falsy ones included) the target holds the value its statement
    assigns.  For [quiet], [no_ansi] and [verbose] this is their state
    when the logger is initialised, on top of the defaults.  [make_pdf]
    and [filename] are kept when unset and applied when truthy. *)
Theorem override_fields_applied
        analysis_dir cfg log_to_file print_intro_fn w w' :
  update_config analysis_dir cfg log_to_file print_intro_fn w = Ok w' ->
  let c := effective_cfg analysis_dir cfg in
  let loaded := reload_config c log_to_file print_intro_fn w in
  (forall f : opt_field,
     overridden f c (conf w') = false ->
     if applied_early f
     then config.get (target f) (conf (reset_verbosity c w)) =
          match assigned f c with
          | Some v => v
          | None => config.get (target f) defaults
          end
     else config.get (target f) (conf w') =
          match assigned f c with
          | Some v => v
          | None => config.get (target f) (conf loaded)
          end) /\
  (ClConfig.make_pdf c = Some true ->
   config.get config.make_pdf (conf w') = true) /\
  (ClConfig.make_pdf c = None ->
   config.get config.make_pdf (conf w') =
   config.get config.make_pdf (conf loaded)) /\
  (forall s, ClConfig.filename c = Some s -> s <> EmptyString ->
             config.get config.filename (conf w') = Some s) /\
  (ClConfig.filename c = None ->
   config.get config.filename (conf w') =
   config.get config.filename (conf loaded)).
Proof.
  intros H c loaded. pose proof (world_of_Ok H) as Hw.
  split; [ | rewrite Hw; repeat split].
  - intros f Hov. destruct (applied_early f) eqn:Hearly.
    + apply early_field_applied, Hearly.
    + destruct (match f with F_file_list => true | _ => false end) eqn:Hf.
      * destruct f; try discriminate Hf.
        apply (file_list_applied _ _ _ _ _ H).
      * rewrite Hw. rewrite Hw in Hov.
        apply late_field_applied; [exact Hearly | | exact Hov].
        intros ->. discriminate Hf.
  - intros Hpdf. final. fold c. peel. rewrite Hpdf. cbn [truthy_bool when].
    rewrite seq_apply. peel. apply get_setattr_eq.
  - intros Hpdf. final. fold c. peel. rewrite Hpdf. cbn [truthy_bool when].
    unfold skip. peel. reflexivity.
  - intros s Hs Hne. final. fold c. peel. rewrite Hs.
    unfold truthy_str. apply String.eqb_neq in Hne. rewrite Hne.
    cbn [negb when]. apply get_setattr_eq.
  - intros Hs. final. fold c. peel. rewrite Hs. cbn [truthy_str when].
    unfold skip. peel. reflexivity.
Qed.

(** ** Further properties of [update_config] *)

(** [strict] is mirrored into the deprecated [lint] (lines 169-171): when
    the override object sets [strict] to [b], the call leaves both
    [config.strict] and [config.lint] equal to [b]. *)
Theorem strict_mirrored_into_lint
        analysis_dir cfg log_to_file print_intro_fn w b :
  ClConfig.strict (effective_cfg analysis_dir cfg) = Some b ->
  let w' := world_of
              (update_config analysis_dir cfg log_to_file print_intro_fn w) in
  config.get config.strict (conf w') = b /\
  config.get config.lint (conf w') = b.
Proof.
  intros Hb w'. subst w'. split; final; peel; rewrite Hb;
    unfold if_not_None; rewrite seq_apply; peel; apply get_setattr_eq.
Qed.

(** A true [make_pdf] (lines 174-179) leaves [config.make_pdf] true, the
    template "simple" and both [plots_force_flat] and [simple_output] true,
    whatever [template] and [plots_force_flat] the same object asks for. *)
Theorem make_pdf_forces_simple_template
        analysis_dir cfg log_to_file print_intro_fn w :
  ClConfig.make_pdf (effective_cfg analysis_dir cfg) = Some true ->
  let w' := world_of
              (update_config analysis_dir cfg log_to_file print_intro_fn w) in
  config.get config.make_pdf (conf w') = true /\
  config.get config.template (conf w') = Some "simple" /\
  config.get config.plots_force_flat (conf w') = true /\
  config.get config.simple_output (conf w') = true.
Proof.
  intros H w'. subst w'.
  split; [ | split; [ | split]]; final; peel.
  - rewrite H. cbn [truthy_bool when]. rewrite seq_apply. peel.
    apply get_setattr_eq.
  - rewrite H. cbn [truthy_bool when]. rewrite seq_apply.
    apply get_setattr_eq.
  - unfold with_config at 1. rewrite H. cbn [truthy_bool when].
    rewrite seq_apply. rewrite get_setattr_eq.
    cbn [opt_string_eqb]. rewrite String.eqb_refl. cbn [when].
    rewrite seq_apply. peel. apply get_setattr_eq.
  - unfold with_config at 1. rewrite H. cbn [truthy_bool when].
    rewrite seq_apply. rewrite get_setattr_eq.
    cbn [opt_string_eqb]. rewrite String.eqb_refl. cbn [when].
    rewrite seq_apply. apply get_setattr_eq.
Qed.

(** The extra cleaning extensions and trimmings are put in front of the
    lists left by the defaults and config files (lines 208-211), in both
    outcomes of the call. *)
Theorem fn_clean_lists_prepended
        analysis_dir cfg log_to_file print_intro_fn w :
  let c := effective_cfg analysis_dir cfg in
  let loaded := reload_config c log_to_file print_intro_fn w in
  let w' := world_of
              (update_config analysis_dir cfg log_to_file print_intro_fn w) in
  config.get config.fn_clean_exts (conf w') =
    ClConfig.extra_fn_clean_exts c
    ++ config.get config.fn_clean_exts (conf loaded) /\
  config.get config.fn_clean_trim (conf w') =
    ClConfig.extra_fn_clean_trim c
    ++ config.get config.fn_clean_trim (conf loaded).
Proof.
  intros c loaded w'. subst w' loaded. split; final; fold c; peel.
  - destruct (ClConfig.extra_fn_clean_exts c) as [ | x l];
      cbn [truthy_list when].
    + unfold skip. peel. reflexivity.
    + unfold with_config at 1. rewrite get_setattr_eq. peel. reflexivity.
  - destruct (ClConfig.extra_fn_clean_trim c) as [ | x l];
      cbn [truthy_list when].
    + unfold skip. peel. reflexivity.
    + unfold with_config at 1. rewrite get_setattr_eq. peel. reflexivity.
Qed.

(** The custom CSS files of the override object are appended after those
    left by the defaults and config files (lines 204-205). *)
Theorem custom_css_files_appended
        analysis_dir cfg log_to_file print_intro_fn w :
  let c := effective_cfg analysis_dir cfg in
  let loaded := reload_config c log_to_file print_intro_fn w in
  let w' := world_of
              (update_config analysis_dir cfg log_to_file print_intro_fn w) in
  config.get config.custom_css_files (conf w') =
    config.get config.custom_css_files (conf loaded)
    ++ ClConfig.custom_css_files c.
Proof.
  intros c loaded w'. subst w' loaded. final; fold c; peel.
  destruct (ClConfig.custom_css_files c) as [ | x l]; cbn [truthy_list when].
  - unfold skip. peel. rewrite app_nil_r. reflexivity.
  - unfold with_config at 1. rewrite get_setattr_eq. peel. reflexivity.
Qed.

Lemma module_order_after_overwrite
      analysis_dir cfg log_to_file print_intro_fn w :
  let c := effective_cfg analysis_dir cfg in
  config.get config.module_order
    (conf (after_overwrite analysis_dir cfg log_to_file print_intro_fn w)) =
  match ClConfig.module_order c with
  | [] => config.get config.module_order
            (conf (reload_config c log_to_file print_intro_fn w))
  | _ :: _ => ClConfig.module_order c
  end.
Proof.
  intros c. unfold after_overwrite, overwrite_config_vars.
  rewrite !seq_apply. fold c. peel.
  destruct (ClConfig.module_order c) as [ | x l]; cbn [truthy_list when].
  - unfold skip. peel. reflexivity.
  - apply get_setattr_eq.
Qed.

(** [run_modules], [exclude_modules] and [module_order] replace the list in
    [config] wholesale when they are non-empty (lines 192-195, 206-207); an
    empty list leaves the list of the defaults and config files in place,
    so these fields cannot clear it. *)
Theorem module_lists_replaced_when_non_empty
        analysis_dir cfg log_to_file print_intro_fn w :
  let c := effective_cfg analysis_dir cfg in
  let loaded := reload_config c log_to_file print_intro_fn w in
  let w' := world_of
              (update_config analysis_dir cfg log_to_file print_intro_fn w) in
  config.get config.run_modules (conf w') =
    match ClConfig.run_modules c with
    | [] => config.get config.run_modules (conf loaded)
    | _ :: _ => ClConfig.run_modules c
    end /\
  config.get config.exclude_modules (conf w') =
    match ClConfig.exclude_modules c with
    | [] => config.get config.exclude_modules (conf loaded)
    | _ :: _ => ClConfig.exclude_modules c
    end /\
  config.get config.module_order (conf w') =
    match ClConfig.module_order c with
    | [] => config.get config.module_order (conf loaded)
    | _ :: _ => ClConfig.module_order c
    end.
Proof.
  intros c loaded w'. subst w' loaded.
  split; [ | split].
  - final; fold c; peel.
    destruct (ClConfig.run_modules c) as [ | x l];
      cbn [List.length Nat.ltb Nat.leb when].
    + unfold skip. peel. reflexivity.
    + apply get_setattr_eq.
  - final; fold c; peel.
    destruct (ClConfig.exclude_modules c) as [ | x l];
      cbn [List.length Nat.ltb Nat.leb when].
    + unfold skip. peel. reflexivity.
    + apply get_setattr_eq.
  - rewrite final_get by discriminate. apply module_order_after_overwrite.
Qed.

(** *** What follows the file-list check *)

Lemma extend_and_prep_samples cfg w :
  let ext a := config.get a (conf (extend_and_prep cfg w)) in
  ext config.sample_names_ignore =
    config.get config.sample_names_ignore (conf w)
    ++ ClConfig.ignore_samples cfg /\
  ext config.sample_names_only_include =
    config.get config.sample_names_only_include (conf w)
    ++ ClConfig.only_samples cfg.
Proof.
  cbv zeta. unfold extend_and_prep. rewrite !seq_apply. split; peel.
  - destruct (ClConfig.ignore_samples cfg) as [ | x l];
      cbn [List.length Nat.ltb Nat.leb when].
    + unfold skip. peel. rewrite app_nil_r. reflexivity.
    + rewrite seq_apply. unfold with_config at 1. rewrite get_setattr_eq.
      peel. reflexivity.
  - destruct (ClConfig.only_samples cfg) as [ | x l];
      cbn [List.length Nat.ltb Nat.leb when].
    + unfold skip. peel. rewrite app_nil_r. reflexivity.
    + rewrite seq_apply. unfold with_config at 1. rewrite get_setattr_eq.
      peel. reflexivity.
Qed.

(** After a call that returns, [config.sample_names_ignore] and
    [config.sample_names_only_include] are the lists left by the defaults
    and config files followed by [ignore_samples] and [only_samples]
    (lines 252-257). *)
Theorem sample_name_lists_extended
        analysis_dir cfg log_to_file print_intro_fn w w' :
  update_config analysis_dir cfg log_to_file print_intro_fn w = Ok w' ->
  let c := effective_cfg analysis_dir cfg in
  let loaded := reload_config c log_to_file print_intro_fn w in
  config.get config.sample_names_ignore (conf w') =
    config.get config.sample_names_ignore (conf loaded)
    ++ ClConfig.ignore_samples c /\
  config.get config.sample_names_only_include (conf w') =
    config.get config.sample_names_only_include (conf loaded)
    ++ ClConfig.only_samples c.
Proof.
  intros H c loaded. apply update_config_Ok in H. cbv zeta in H. fold c in H.
  subst w' loaded. unfold finish_config. rewrite !seq_apply.
  match goal with
  | |- context [extend_and_prep c ?x] =>
      destruct (extend_and_prep_samples c x) as (Hi & Ho)
  end.
  split; peel; [rewrite Hi | rewrite Ho]; f_equal; peel;
    apply before_check_ignore_lists; (reflexivity || discriminate).
Qed.

(** After a call that returns, [config.kwargs] is the [unknown_options]
    dictionary when that is set and non-empty, and otherwise what the
    defaults and config files left: an empty dictionary cannot clear it
    (lines 262-263). *)
Theorem unknown_options_plugged_in
        analysis_dir cfg log_to_file print_intro_fn w w' :
  update_config analysis_dir cfg log_to_file print_intro_fn w = Ok w' ->
  let c := effective_cfg analysis_dir cfg in
  let loaded := reload_config c log_to_file print_intro_fn w in
  config.get config.kwargs (conf w') =
  match ClConfig.unknown_options c with
  | Some (kv :: d) => kv :: d
  | _ => config.get config.kwargs (conf loaded)
  end.
Proof.
  intros H c loaded. apply update_config_Ok in H. cbv zeta in H. fold c in H.
  subst w' loaded. unfold finish_config, extend_and_prep.
  rewrite !seq_apply. peel.
  destruct (ClConfig.unknown_options c) as [[ | kv d] | ];
    cbn [truthy_dict truthy_list when if_not_None].
  - unfold skip. peel. apply before_check_ignore_lists;
      (reflexivity || discriminate).
  - apply get_setattr_eq.
  - unfold skip. peel. apply before_check_ignore_lists;
      (reflexivity || discriminate).
Qed.

(** After a call that returns, [report.top_modules] and
    [report.module_order] hold one dictionary per entry of the [config]
    lists, a bare module name [m] becoming the dictionary with the single
    key [m] and empty options; [report.module_order] follows the
    [module_order] of the override object when that is non-empty (lines
    206-207, 259-260). *)
Theorem report_module_lists_normalised
        analysis_dir cfg log_to_file print_intro_fn w w' :
  update_config analysis_dir cfg log_to_file print_intro_fn w = Ok w' ->
  let c := effective_cfg analysis_dir cfg in
  let loaded := reload_config c log_to_file print_intro_fn w in
  report_top_modules w' =
    map prep_module (config.get config.top_modules (conf loaded)) /\
  report_module_order w' =
    map prep_module
        (match ClConfig.module_order c with
         | [] => config.get config.module_order (conf loaded)
         | _ :: _ => ClConfig.module_order c
         end) /\
  report_top_modules w' =
    map prep_module (config.get config.top_modules (conf w')) /\
  report_module_order w' =
    map prep_module (config.get config.module_order (conf w')).
Proof.
  intros H c loaded. pose proof H as H0.
  apply update_config_Ok in H. cbv zeta in H. fold c in H.
  match type of H with
  | _ = finish_config c ?x =>
      destruct (finish_config_report c x) as [Ht Hm]; set (x0 := x) in *
  end.
  assert (Et : config.get config.top_modules (conf x0) =
               config.get config.top_modules (conf loaded)).
  { subst x0. peel. apply before_check_ignore_lists;
      (reflexivity || discriminate). }
  assert (Em : config.get config.module_order (conf x0) =
               match ClConfig.module_order c with
               | [] => config.get config.module_order (conf loaded)
               | _ :: _ => ClConfig.module_order c
               end).
  { subst x0. peel. unfold before_check. rewrite !seq_apply.
    rewrite set_analysis_dir_preserves by discriminate.
    apply (module_order_after_overwrite analysis_dir cfg log_to_file
                                        print_intro_fn w). }
  assert (Ft : config.get config.top_modules (conf w') =
               config.get config.top_modules (conf x0)).
  { rewrite H. apply finish_config_preserves; discriminate. }
  assert (Fm : config.get config.module_order (conf w') =
               config.get config.module_order (conf x0)).
  { rewrite H. apply finish_config_preserves; discriminate. }
  rewrite Ft, Fm, H, Ht, Hm, Et, Em. repeat split.
Qed.

(** [config.analysis_dir] is replaced by the positional arguments when
    there are any, and kept as the defaults and config files left it when
    there are none (lines 240-241), in both outcomes of the call. *)
Theorem analysis_dir_replaced_by_positional_arguments
        analysis_dir cfg log_to_file print_intro_fn w :
  let c := effective_cfg analysis_dir cfg in
  let loaded := reload_config c log_to_file print_intro_fn w in
  let w' := world_of
              (update_config analysis_dir cfg log_to_file print_intro_fn w) in
  config.get config.analysis_dir (conf w') =
  match analysis_dir with
  | [] => config.get config.analysis_dir (conf loaded)
  | _ :: _ => analysis_dir
  end.
Proof.
  intros c loaded w'. subst w' loaded c.
  rewrite <- before_check_analysis_dir.
  rewrite update_config_cases. cbv zeta.
  destruct (ClConfig.file_list _); [destruct (1 <? _)%nat | ];
    cbn [world_of]; try reflexivity;
    rewrite (finish_config_preserves (a:=config.analysis_dir))
      by discriminate;
    peel; reflexivity.
Qed.

(** Legacy call style: when the override object is passed as the first
    positional argument (and no [cfg] keyword is given) it is the object in
    effect, and it also stays in [config.analysis_dir] as its first entry;
    so with its [file_list] set, one more positional argument is enough to
    make the call raise (lines 92-93, 240-244). *)
Theorem positional_cfg_counts_as_analysis_dir
        (c0 : ClConfig.t) (rest : list posarg)
        log_to_file print_intro_fn w :
  let run := update_config (PosCfg c0 :: rest) None
                           log_to_file print_intro_fn in
  effective_cfg (PosCfg c0 :: rest) None = c0 /\
  config.get config.analysis_dir (conf (world_of (run w))) =
    PosCfg c0 :: rest /\
  (ClConfig.file_list c0 <> None -> rest <> [] ->
   exists w', run w = Raise (RunError file_list_message) w').
Proof.
  cbv zeta. split; [reflexivity | split].
  - rewrite update_config_cases. cbv zeta.
    destruct (ClConfig.file_list _); [destruct (1 <? _)%nat | ];
      cbn [world_of];
      try rewrite (finish_config_preserves (a:=config.analysis_dir))
        by discriminate;
      peel; apply before_check_analysis_dir.
  - intros Hfl Hrest. rewrite update_config_cases. cbv zeta.
    change (effective_cfg (PosCfg c0 :: rest) None) with c0.
    destruct (ClConfig.file_list c0); [ | congruence].
    rewrite before_check_analysis_dir.
    destruct rest as [ | p rest]; [congruence | ].
    cbn [List.length Nat.ltb Nat.leb]. eauto.
Qed.

(** The export formats left by the defaults and config files are kept, in
    their order, and nothing but a single final "png" is ever added; in
    particular [development=False] does not remove a "png" that is there
    (lines 236-237). *)
Theorem export_plot_formats_kept
        analysis_dir cfg log_to_file print_intro_fn w :
  let c := effective_cfg analysis_dir cfg in
  let loaded := reload_config c log_to_file print_intro_fn w in
  let w' := world_of
              (update_config analysis_dir cfg log_to_file print_intro_fn w) in
  exists tail,
    config.get config.export_plot_formats (conf w') =
      config.get config.export_plot_formats (conf loaded) ++ tail /\
    (tail = [] \/ tail = ["png"]) /\
    (In "png" (config.get config.export_plot_formats (conf loaded)) ->
     tail = []).
Proof.
  cbv zeta. rewrite export_plot_formats_final. cbv zeta.
  destruct (config.get config.development _ && negb (str_in "png" _)) eqn:E.
  - exists ["png"]. split; [reflexivity | split; [right; reflexivity | ]].
    intros Hin. apply str_in_In in Hin.
    apply andb_prop in E. destruct E as [_ E]. rewrite Hin in E.
    discriminate E.
  - exists []. rewrite app_nil_r. auto.
Qed.

(** *** When the call raises *)

Lemma keeps_report_skip : keeps_report skip.
Proof. intros w. split; reflexivity. Qed.

Lemma keeps_report_emit e : keeps_report (emit e).
Proof. intros w. split; reflexivity. Qed.

Lemma keeps_report_setattr a (v : config.ty a) : keeps_report (setattr a v).
Proof. intros w. split; reflexivity. Qed.

Lemma keeps_report_on_config f : keeps_report (on_config f).
Proof. intros w. split; reflexivity. Qed.

Lemma keeps_report_seq s1 s2 :
  keeps_report s1 -> keeps_report s2 -> keeps_report (s1 ;; s2).
Proof.
  intros H1 H2 w. rewrite seq_apply.
  destruct (H1 w) as [A1 B1]. destruct (H2 (s1 w)) as [A2 B2].
  split; congruence.
Qed.

Lemma keeps_report_if_not_None A (o : option A) (body : A -> step) :
  (forall v, keeps_report (body v)) -> keeps_report (if_not_None o body).
Proof. intros H. destruct o; [apply H | apply keeps_report_skip]. Qed.

Lemma keeps_report_when (b : bool) s :
  keeps_report s -> keeps_report (when b s).
Proof. intros H. destruct b; [apply H | apply keeps_report_skip]. Qed.

Lemma keeps_report_with_config (f : config.t -> step) :
  (forall c, keeps_report (f c)) -> keeps_report (with_config f).
Proof. intros H w. apply H. Qed.

Lemma keeps_report_for_each A (l : list A) (body : A -> step) :
  (forall x, keeps_report (body x)) -> keeps_report (for_each l body).
Proof.
  intros H. induction l as [ | x l IH]; simpl.
  - apply keeps_report_skip.
  - apply keeps_report_seq; [apply H | apply IH].
Qed.

Create HintDb report.
Hint Resolve keeps_report_skip keeps_report_emit keeps_report_setattr
  keeps_report_on_config : report.

Ltac keeps_go :=
  cbv beta;
  lazymatch goal with
  | |- keeps_report (seq _ _) => apply keeps_report_seq; keeps_go
  | |- keeps_report (if_not_None _ _) =>
      apply keeps_report_if_not_None; intro; keeps_go
  | |- keeps_report (when _ _) => apply keeps_report_when; keeps_go
  | |- keeps_report (with_config _) =>
      apply keeps_report_with_config; intro; keeps_go
  | |- keeps_report (for_each _ _) =>
      apply keeps_report_for_each; intro; keeps_go
  | |- keeps_report _ => auto with report
  end.

Lemma before_check_keeps_report
      analysis_dir cfg log_to_file print_intro_fn :
  keeps_report (before_check analysis_dir cfg log_to_file print_intro_fn).
Proof.
  unfold before_check, reload_config, reset_verbosity, load_defaults,
    start_logging, load_user_configs, config_find_user_files,
    config_load_config_file, config_load_cl_config, overwrite_config_vars,
    set_analysis_dir, mqc_trigger, init_log, logger_debug, logger_info,
    load_replace_names, load_sample_names, load_show_hide.
  cbv zeta. solve [keeps_go].
Qed.

Lemma update_config_Raise analysis_dir cfg log_to_file print_intro_fn w e w' :
  update_config analysis_dir cfg log_to_file print_intro_fn w = Raise e w' ->
  w' = before_check analysis_dir cfg log_to_file print_intro_fn w.
Proof.
  rewrite update_config_cases. cbv zeta.
  destruct (ClConfig.file_list _); [destruct (1 <? _)%nat | ];
    intros H; inversion H; reflexivity.
Qed.

(** When the call raises, nothing that follows the check has happened:
    [config.file_list], the three ignore lists, the two sample-name lists
    and [config.kwargs] are as the defaults and config files left them, and
    the two [report] lists are as they were before the call (lines
    242-263). *)
Theorem raise_skips_later_statements
        analysis_dir cfg log_to_file print_intro_fn w e w' :
  update_config analysis_dir cfg log_to_file print_intro_fn w = Raise e w' ->
  let c := effective_cfg analysis_dir cfg in
  let loaded := reload_config c log_to_file print_intro_fn w in
  (forall a,
     In a [config.file_list; config.fn_ignore_files; config.fn_ignore_dirs;
           config.fn_ignore_paths; config.sample_names_ignore;
           config.sample_names_only_include; config.kwargs] ->
     config.get a (conf w') = config.get a (conf loaded)) /\
  report_top_modules w' = report_top_modules w /\
  report_module_order w' = report_module_order w.
Proof.
  intros H c loaded. apply update_config_Raise in H. subst w' loaded c.
  split.
  - intros a Ha. simpl in Ha.
    repeat (destruct Ha as [<- | Ha];
            [apply before_check_ignore_lists;
             (reflexivity || discriminate) | ]).
    contradiction.
  - apply before_check_keeps_report.
Qed.

(** When the call raises, the overrides applied before the check are not
    rolled back: every field guarded by [is not None] other than
    [file_list] and the three verbosity fields has been applied as in a
    call that returns. *)
Theorem raise_keeps_applied_fields
        analysis_dir cfg log_to_file print_intro_fn w e w' (f : opt_field) :
  update_config analysis_dir cfg log_to_file print_intro_fn w = Raise e w' ->
  let c := effective_cfg analysis_dir cfg in
  let loaded := reload_config c log_to_file print_intro_fn w in
  applied_early f = false -> f <> F_file_list ->
  overridden f c (conf w') = false ->
  config.get (target f) (conf w') =
  match assigned f c with
  | Some v => v
  | None => config.get (target f) (conf loaded)
  end.
Proof.
  intros H c loaded Hearly Hf Hov.
  assert (Hw : w' = world_of (update_config analysis_dir cfg log_to_file
                                            print_intro_fn w))
    by (rewrite H; reflexivity).
  rewrite Hw. rewrite Hw in Hov.
  apply late_field_applied; assumption.
Qed.

(** *** The empty override *)

Ltac frame_conv :=
  cbv beta;
  first
    [ exact (preserves_skip _)
    | lazymatch goal with
      | |- preserves _ (seq _ _) => apply preserves_seq; frame_conv
      | |- preserves _ (if_not_None _ _) =>
          apply preserves_if_not_None; intro; frame_conv
      | |- preserves _ (when _ _) => apply preserves_when; frame_conv
      | |- preserves _ (with_config _) =>
          apply preserves_with_config; intro; frame_conv
      | |- preserves _ (setattr _ _) =>
          apply preserves_setattr; auto with frame
      | |- preserves _ _ => auto with frame
      end ].

Lemma default_override_preserves a :
  a <> config.plots_force_flat -> a <> config.simple_output ->
  a <> config.export_plot_formats ->
  preserves a (overwrite_config_vars ClConfig.default ;;
               set_analysis_dir [] ;;
               finish_config ClConfig.default).
Proof.
  intros H1 H2 H3.
  unfold overwrite_config_vars, set_analysis_dir, finish_config,
    extend_and_prep.
  destruct a; try congruence; solve [frame_conv].
Qed.

(** Called without arguments, [update_config] returns and changes nothing
    of what the defaults and config files left, apart from the two derived
    settings: every attribute other than [plots_force_flat],
    [simple_output] and [export_plot_formats] is as loaded. *)
Theorem empty_override_keeps_loaded_config
        log_to_file print_intro_fn w a :
  a <> config.plots_force_flat -> a <> config.simple_output ->
  a <> config.export_plot_formats ->
  exists w',
    update_config [] None log_to_file print_intro_fn w = Ok w' /\
    config.get a (conf w') =
    config.get a
      (conf (reload_config ClConfig.default log_to_file print_intro_fn w)).
Proof.
  intros H1 H2 H3. rewrite update_config_cases. cbv zeta.
  change (effective_cfg [] None) with ClConfig.default.
  cbn [ClConfig.file_list ClConfig.default].
  eexists. split; [reflexivity | ].
  pose proof (default_override_preserves H1 H2 H3
                (reload_config ClConfig.default log_to_file
                               print_intro_fn w)) as H.
  rewrite !seq_apply in H. exact H.
Qed.

(** *** Calls made to collaborators *)

Ltac emits_conv :=
  cbv beta;
  first
    [ exact (emits_skip _)
    | lazymatch goal with
      | |- emits _ (seq _ _) => apply emits_seq; emits_conv
      | |- emits _ (if_not_None _ _) =>
          apply emits_if_not_None; intro; emits_conv
      | |- emits _ (when _ _) => apply emits_when; emits_conv
      | |- emits _ (with_config _) =>
          apply emits_with_config; intro; emits_conv
      | |- emits _ (for_each _ _) =>
          apply emits_for_each; intro; emits_conv
      | |- emits _ (emit _) =>
          apply emits_emit;
          first [ exact I | reflexivity | split; reflexivity ]
      | |- emits _ _ => auto with trace
      end ].

Ltac unfold_calls :=
  unfold appends, logger_debug, logger_info, load_replace_names,
    load_sample_names, load_show_hide, mqc_trigger, init_log,
    config_find_user_files, config_load_config_file, config_load_cl_config,
    load_defaults.

Ltac appends_solve := unfold_calls; solve [ emits_conv ].

Lemma set_analysis_dir_emits P l : emits P (set_analysis_dir l).
Proof. unfold set_analysis_dir. solve [emits_conv]. Qed.

(** The events of a call, from those of its three parts. *)
Lemma call_emits P analysis_dir cfg log_to_file print_intro_fn w :
  let c := effective_cfg analysis_dir cfg in
  emits P (reload_config c log_to_file print_intro_fn) ->
  emits P (overwrite_config_vars c) ->
  emits P (finish_config c) ->
  exists evs,
    trace (world_of
             (update_config analysis_dir cfg log_to_file print_intro_fn w)) =
      trace w ++ evs /\
    Forall P evs.
Proof.
  intros c Hr Ho Hf.
  assert (Hb : emits P (before_check analysis_dir cfg log_to_file
                                     print_intro_fn)).
  { unfold before_check. cbv zeta. fold c.
    apply emits_seq; [exact Hr | ].
    apply emits_seq; [exact Ho | apply set_analysis_dir_emits]. }
  rewrite update_config_cases. cbv zeta. fold c.
  destruct (Hb w) as (e1 & E1 & F1).
  set (b := before_check analysis_dir cfg log_to_file print_intro_fn w) in *.
  assert (Hfin : forall x, trace x = trace b ->
            exists evs, trace (finish_config c x) = trace w ++ evs /\
                        Forall P evs).
  { intros x Ex. destruct (Hf x) as (e2 & E2 & F2).
    exists (e1 ++ e2). rewrite E2, Ex, E1, app_assoc.
    split; [reflexivity | apply Forall_app; auto]. }
  destruct (ClConfig.file_list c); [destruct (1 <? _)%nat | ];
    cbn [world_of].
  - exists e1. auto.
  - apply Hfin. reflexivity.
  - apply Hfin. reflexivity.
Qed.

Lemma reload_config_appends cfg log_to_file print_intro_fn :
  appends (reload_config cfg log_to_file print_intro_fn).
Proof.
  unfold reload_config, reset_verbosity, start_logging, load_user_configs.
  appends_solve.
Qed.

Lemma overwrite_config_vars_appends cfg :
  appends (overwrite_config_vars cfg).
Proof. unfold overwrite_config_vars. appends_solve. Qed.

Lemma finish_config_appends cfg : appends (finish_config cfg).
Proof. unfold finish_config, extend_and_prep. appends_solve. Qed.

Lemma adds_emit e : adds e (emit e).
Proof. intros w. exists [e]. split; [reflexivity | left; reflexivity]. Qed.

Lemma adds_seq_l e s1 s2 : adds e s1 -> appends s2 -> adds e (s1 ;; s2).
Proof.
  intros H1 H2 w. rewrite seq_apply.
  destruct (H1 w) as (e1 & E1 & I1). destruct (H2 (s1 w)) as (e2 & E2 & _).
  exists (e1 ++ e2). rewrite E2, E1, app_assoc.
  split; [reflexivity | apply in_or_app; left; exact I1].
Qed.

Lemma adds_seq_r e s1 s2 : appends s1 -> adds e s2 -> adds e (s1 ;; s2).
Proof.
  intros H1 H2 w. rewrite seq_apply.
  destruct (H1 w) as (e1 & E1 & _). destruct (H2 (s1 w)) as (e2 & E2 & I2).
  exists (e1 ++ e2). rewrite E2, E1, app_assoc.
  split; [reflexivity | apply in_or_app; right; exact I2].
Qed.

(** Find, in a sequence, the statement for which [tac] shows the event. *)
Ltac adds_chain tac :=
  lazymatch goal with
  | |- adds _ (seq _ _) =>
      first [ apply adds_seq_l; [ solve [tac] | appends_solve ]
            | apply adds_seq_r; [ appends_solve | adds_chain tac ] ]
  | |- adds _ _ => solve [tac]
  end.

(** An event added by lines 131-237 is added by the call. *)
Lemma call_adds e analysis_dir cfg log_to_file print_intro_fn w :
  adds e (overwrite_config_vars (effective_cfg analysis_dir cfg)) ->
  exists evs,
    trace (world_of
             (update_config analysis_dir cfg log_to_file print_intro_fn w)) =
      trace w ++ evs /\
    In e evs.
Proof.
  intros Ho. set (c := effective_cfg analysis_dir cfg) in *.
  destruct (reload_config_appends c log_to_file print_intro_fn w)
    as (e1 & E1 & _).
  set (w1 := reload_config c log_to_file print_intro_fn w) in *.
  destruct (Ho w1) as (e2 & E2 & I2).
  set (w2 := overwrite_config_vars c w1) in *.
  destruct (set_analysis_dir_emits (fun _ => True) analysis_dir w2)
    as (e3 & E3 & _).
  assert (Eb : before_check analysis_dir cfg log_to_file print_intro_fn w =
               set_analysis_dir analysis_dir w2) by reflexivity.
  rewrite update_config_cases. cbv zeta. fold c. rewrite Eb.
  set (b := set_analysis_dir analysis_dir w2) in *.
  assert (Ib : In e (e1 ++ e2 ++ e3))
    by (apply in_or_app; right; apply in_or_app; left; exact I2).
  assert (Hfin : forall x, trace x = trace b ->
            exists evs, trace (finish_config c x) = trace w ++ evs /\
                        In e evs).
  { intros x Ex. destruct (finish_config_appends c x) as (e4 & E4 & _).
    exists ((e1 ++ e2 ++ e3) ++ e4).
    rewrite E4, Ex, E3, E2, E1, <- !app_assoc.
    split; [reflexivity | ].
    rewrite !app_assoc. apply in_or_app. left. rewrite <- !app_assoc.
    exact Ib. }
  destruct (ClConfig.file_list c); [destruct (1 <? _)%nat | ];
    cbn [world_of].
  - exists (e1 ++ e2 ++ e3). rewrite E3, E2, E1, <- !app_assoc. auto.
  - apply Hfin. reflexivity.
  - apply Hfin. reflexivity.
Qed.

(** The two informational messages of lines 141 and 186 depend on the
    field being set, not on its value: "Prepending directory to sample
    names" is logged also for [prepend_dirs=False], and "Not cleaning
    sample names" also for [fn_clean_sample_names=True]. *)
Theorem info_messages_ignore_the_value
        analysis_dir cfg log_to_file print_intro_fn w b :
  let c := effective_cfg analysis_dir cfg in
  let w' := world_of
              (update_config analysis_dir cfg log_to_file print_intro_fn w) in
  (ClConfig.prepend_dirs c = Some b ->
   exists evs,
     trace w' = trace w ++ evs /\
     In (EvLog INFO "Prepending directory to sample names") evs) /\
  (ClConfig.fn_clean_sample_names c = Some b ->
   exists evs,
     trace w' = trace w ++ evs /\
     In (EvLog INFO "Not cleaning sample names") evs).
Proof.
  intros c w'. subst w'. split; intros H; apply call_adds; fold c;
    unfold overwrite_config_vars; rewrite H;
    adds_chain ltac:(cbn [if_not_None]; apply adds_seq_r;
                     [appends_solve | exact (adds_emit _)]).
Qed.

(** [config.load_show_hide] is called in every call, also one that raises:
    with the [sample_filters] path when that is a non-empty string, and
    with [None] when it is unset or empty (line 191). *)
Theorem load_show_hide_always_called
        analysis_dir cfg log_to_file print_intro_fn w :
  let c := effective_cfg analysis_dir cfg in
  let w' := world_of
              (update_config analysis_dir cfg log_to_file print_intro_fn w) in
  exists evs,
    trace w' = trace w ++ evs /\
    In (EvLoadShowHide
          (match ClConfig.sample_filters c with
           | Some p => if String.eqb p EmptyString then None else Some p
           | None => None
           end)) evs.
Proof.
  intros c w'. subst w'. apply call_adds. fold c.
  unfold overwrite_config_vars.
  destruct (ClConfig.sample_filters c) as [p | ]; cbn [truthy_str];
    [destruct (String.eqb p EmptyString); cbn [negb] | ];
    adds_chain ltac:(exact (adds_emit _)).
Qed.

(** [config.load_replace_names], [config.load_sample_names] and
    [config.load_cl_config] are called only when given something: with
    [replace_names] (or [sample_names]) unset or empty, or [cl_config]
    empty, the call makes no such call (lines 128-129, 187-190). *)
Theorem auxiliary_loaders_skipped_when_empty
        analysis_dir cfg log_to_file print_intro_fn w :
  let c := effective_cfg analysis_dir cfg in
  let w' := world_of
              (update_config analysis_dir cfg log_to_file print_intro_fn w) in
  (truthy_str (ClConfig.replace_names c) = false ->
   exists evs, trace w' = trace w ++ evs /\
               Forall (fun e => is_load_replace_names e = false) evs) /\
  (truthy_str (ClConfig.sample_names c) = false ->
   exists evs, trace w' = trace w ++ evs /\
               Forall (fun e => is_load_sample_names e = false) evs) /\
  (ClConfig.cl_config c = [] ->
   exists evs, trace w' = trace w ++ evs /\
               Forall (fun e => is_load_cl_config e = false) evs).
Proof.
  intros c w'. subst w'.
  split; [ | split]; intros H; apply call_emits; fold c.
  - unfold reload_config, reset_verbosity, start_logging, load_user_configs.
    unfold_calls. solve [emits_conv].
  - unfold overwrite_config_vars. rewrite H. unfold_calls. solve [emits_conv].
  - unfold finish_config, extend_and_prep. unfold_calls. solve [emits_conv].
  - unfold reload_config, reset_verbosity, start_logging, load_user_configs.
    unfold_calls. solve [emits_conv].
  - unfold overwrite_config_vars. rewrite H. unfold_calls. solve [emits_conv].
  - unfold finish_config, extend_and_prep. unfold_calls. solve [emits_conv].
  - unfold reload_config, reset_verbosity, start_logging, load_user_configs.
    rewrite H. unfold_calls. solve [emits_conv].
  - unfold overwrite_config_vars. unfold_calls. solve [emits_conv].
  - unfold finish_config, extend_and_prep. unfold_calls. solve [emits_conv].
Qed.

(** A non-empty [replace_names] or [sample_names] path is handed to its
    loader (lines 187-190). *)
Theorem auxiliary_loaders_called_with_path
        analysis_dir cfg log_to_file print_intro_fn w p :
  p <> EmptyString ->
  let c := effective_cfg analysis_dir cfg in
  let w' := world_of
              (update_config analysis_dir cfg log_to_file print_intro_fn w) in
  (ClConfig.replace_names c = Some p ->
   exists evs, trace w' = trace w ++ evs /\ In (EvLoadReplaceNames p) evs) /\
  (ClConfig.sample_names c = Some p ->
   exists evs, trace w' = trace w ++ evs /\ In (EvLoadSampleNames p) evs).
Proof.
  intros Hp c w'. subst w'. apply String.eqb_neq in Hp.
  split; intros H; apply call_adds; fold c; unfold overwrite_config_vars;
    rewrite H; unfold truthy_str; rewrite Hp; cbn [negb];
    adds_chain ltac:(exact (adds_emit _)).
Qed.

(** The events of a call after the config files have been loaded. *)
Lemma call_emits_after_reload
      P analysis_dir cfg log_to_file print_intro_fn w :
  let c := effective_cfg analysis_dir cfg in
  emits P (overwrite_config_vars c) ->
  emits P (finish_config c) ->
  exists evs,
    trace (world_of
             (update_config analysis_dir cfg log_to_file print_intro_fn w)) =
      trace (reload_config c log_to_file print_intro_fn w) ++ evs /\
    Forall P evs.
Proof.
  intros c Ho Hf.
  set (w1 := reload_config c log_to_file print_intro_fn w).
  assert (Hb : exists evs,
             trace (before_check analysis_dir cfg log_to_file
                                 print_intro_fn w) = trace w1 ++ evs /\
             Forall P evs).
  { unfold before_check. cbv zeta. fold c. rewrite !seq_apply. fold w1.
    destruct (Ho w1) as (e2 & E2 & F2).
    destruct (set_analysis_dir_emits P analysis_dir
                                     (overwrite_config_vars c w1))
      as (e3 & E3 & F3).
    exists (e2 ++ e3). rewrite E3, E2, app_assoc.
    split; [reflexivity | apply Forall_app; auto]. }
  destruct Hb as (e1 & E1 & F1).
  rewrite update_config_cases. cbv zeta. fold c.
  set (b := before_check analysis_dir cfg log_to_file print_intro_fn w) in *.
  assert (Hfin : forall x, trace x = trace b ->
            exists evs, trace (finish_config c x) = trace w1 ++ evs /\
                        Forall P evs).
  { intros x Ex. destruct (Hf x) as (e2 & E2 & F2).
    exists (e1 ++ e2). rewrite E2, Ex, E1, app_assoc.
    split; [reflexivity | apply Forall_app; auto]. }
  destruct (ClConfig.file_list c); [destruct (1 <? _)%nat | ];
    cbn [world_of].
  - exists e1. auto.
  - apply Hfin. reflexivity.
  - apply Hfin. reflexivity.
Qed.

Lemma reset_verbosity_trace cfg w :
  trace (reset_verbosity cfg w) = trace w ++ [EvLoadDefaults].
Proof.
  unfold reset_verbosity.
  destruct (ClConfig.quiet cfg), (ClConfig.no_ansi cfg),
    (ClConfig.verbose cfg); reflexivity.
Qed.

Lemma reset_verbosity_other_attributes cfg w a :
  a <> config.quiet -> a <> config.no_ansi -> a <> config.verbose ->
  config.get a (conf (reset_verbosity cfg w)) = config.get a defaults.
Proof.
  intros H1 H2 H3. unfold reset_verbosity, load_defaults.
  rewrite !seq_apply. peel. reflexivity.
Qed.

Lemma b2z_gtb (v : bool) : (Z.b2z v >? 0)%Z = v.
Proof. destruct v; reflexivity. Qed.

(** The logger is initialised on the defaults with only the three
    verbosity fields of the override object applied, before any config file
    is looked for: the call's trace starts with the reset and then
    [init_log], which sees [quiet], [no_ansi] and [verbose] as given (or as
    in the defaults when unset) and every other attribute at its default
    (lines 89-104). *)
Theorem init_log_sees_verbosity_on_defaults
        analysis_dir cfg log_to_file print_intro_fn w :
  let c := effective_cfg analysis_dir cfg in
  let w' := world_of
              (update_config analysis_dir cfg log_to_file print_intro_fn w) in
  exists seen rest,
    trace w' =
      trace w ++ EvLoadDefaults :: EvInitLog log_to_file seen :: rest /\
    config.get config.quiet seen =
      match ClConfig.quiet c with
      | Some v => v
      | None => config.get config.quiet defaults
      end /\
    config.get config.no_ansi seen =
      match ClConfig.no_ansi c with
      | Some v => v
      | None => config.get config.no_ansi defaults
      end /\
    config.get config.verbose seen =
      match ClConfig.verbose c with
      | Some v => v
      | None => config.get config.verbose defaults
      end /\
    (forall a, a <> config.quiet -> a <> config.no_ansi ->
               a <> config.verbose ->
               config.get a seen = config.get a defaults).
Proof.
  intros c w'. subst w'.
  destruct (@call_emits_after_reload (fun _ => True)
              analysis_dir cfg log_to_file print_intro_fn w
              (overwrite_config_vars_appends _) (finish_config_appends _))
    as (e3 & E3 & _).
  fold c in E3. unfold reload_config in E3. rewrite !seq_apply in E3.
  set (w1 := reset_verbosity c w) in *.
  destruct (start_logging_init_log log_to_file print_intro_fn w1)
    as (e1 & E1).
  set (w2 := start_logging log_to_file print_intro_fn w1) in *.
  destruct (load_user_configs_emits c (mqc_trigger "before_config" w2))
    as (e2 & E2 & _).
  rewrite E2 in E3. cbn [mqc_trigger with_config emit trace] in E3.
  rewrite E1 in E3. unfold w1 in E3 at 1. rewrite reset_verbosity_trace in E3.
  exists (conf w1), (e1 ++ [EvHook "before_config" (conf w2)] ++ e2 ++ e3).
  split; [ | split; [ | split; [ | split]]].
  - rewrite E3. rewrite <- !app_assoc. reflexivity.
  - apply (early_field_applied c w F_quiet). reflexivity.
  - apply (early_field_applied c w F_no_ansi). reflexivity.
  - pose proof (early_field_applied c w F_verbose eq_refl) as Hv.
    cbn [target assigned option_map] in Hv. fold w1 in Hv. rewrite Hv.
    destruct (ClConfig.verbose c); [apply b2z_gtb | reflexivity].
  - intros a H1 H2 H3. apply reset_verbosity_other_attributes; assumption.
Qed.

Lemma for_each_load_config_file_trace (l : list string) x w :
  trace (for_each l (fun path => config_load_config_file path x) w) =
  trace w ++ map (fun path => EvLoadConfigFile path x) l.
Proof.
  revert w. induction l as [ | p l IH]; intros w; simpl.
  - unfold skip. rewrite app_nil_r. reflexivity.
  - rewrite seq_apply, IH. unfold config_load_config_file.
    rewrite seq_apply. cbn [on_config emit trace].
    rewrite <- app_assoc. reflexivity.
Qed.

Lemma filter_none (P : event -> bool) evs :
  Forall (fun e => P e = false) evs -> filter P evs = [].
Proof.
  induction 1 as [ | e evs He _ IH]; simpl; [reflexivity | ].
  rewrite He. exact IH.
Qed.

Lemma filter_all (P : event -> bool) evs :
  Forall (fun e => P e = true) evs -> filter P evs = evs.
Proof.
  induction 1 as [ | e evs He _ IH]; simpl; [reflexivity | ].
  rewrite He, IH. reflexivity.
Qed.

(** Order of precedence among config files: the discovery and loading
    calls of a call are, in this order, [find_user_files], one
    [load_config_file] (with the callee's default [is_explicit_config]) per
    explicit user config file known after the discovery, one
    [load_config_file(..., is_explicit_config=False)] per entry of
    [config_files] in list order, and [load_cl_config] when [cl_config] is
    not empty (lines 116-129). *)
Theorem config_files_loaded_in_order
        analysis_dir cfg log_to_file print_intro_fn w :
  let c := effective_cfg analysis_dir cfg in
  let w' := world_of
              (update_config analysis_dir cfg log_to_file print_intro_fn w) in
  let started :=
    conf (start_logging log_to_file print_intro_fn (reset_verbosity c w)) in
  let explicit :=
    config.get config.explicit_user_config_files
      (find_user_files (config.set config.loaded_user_files [] started)) in
  exists evs,
    trace w' = trace w ++ evs /\
    filter is_config_loading evs =
      EvFindUserFiles
      :: map (fun path => EvLoadConfigFile path None) explicit
      ++ map (fun path => EvLoadConfigFile path (Some false))
             (ClConfig.config_files c)
      ++ match ClConfig.cl_config c with
         | [] => []
         | _ :: _ => [EvLoadClConfig (ClConfig.cl_config c)]
         end.
Proof.
  intros c w' started explicit. subst w'.
  destruct (@call_emits_after_reload
              (fun e => is_config_loading e = false)
              analysis_dir cfg log_to_file print_intro_fn w)
    as (e3 & E3 & F3).
  { unfold overwrite_config_vars. unfold_calls. solve [emits_conv]. }
  { unfold finish_config, extend_and_prep. unfold_calls. solve [emits_conv]. }
  fold c in E3. unfold reload_config in E3. rewrite !seq_apply in E3.
  set (w1 := reset_verbosity c w) in *.
  assert (F1 : exists e1, trace (start_logging log_to_file print_intro_fn w1)
                          = trace w ++ EvLoadDefaults :: e1 /\
                          Forall (fun e => is_config_loading e = false) e1).
  { assert (Hs : emits (fun e => is_config_loading e = false)
                       (start_logging log_to_file print_intro_fn))
      by (unfold start_logging; unfold_calls; solve [emits_conv]).
    destruct (Hs w1) as (e1 & E1 & F1). exists e1.
    rewrite E1. unfold w1. rewrite reset_verbosity_trace.
    rewrite <- app_assoc. auto. }
  destruct F1 as (e1 & E1 & F1).
  set (w2 := start_logging log_to_file print_intro_fn w1) in *.
  set (w3 := mqc_trigger "before_config" w2) in *.
  assert (E2 : trace (load_user_configs c w3) =
               trace w3
               ++ EvFindUserFiles
               :: map (fun path => EvLoadConfigFile path None) explicit
               ++ map (fun path => EvLoadConfigFile path (Some false))
                      (ClConfig.config_files c)
               ++ match ClConfig.cl_config c with
                  | [] => []
                  | _ :: _ => [EvLoadClConfig (ClConfig.cl_config c)]
                  end).
  { unfold load_user_configs. rewrite !seq_apply.
    assert (Ecl : forall x,
              trace (when (0 <? List.length (ClConfig.cl_config c))%nat
                       (config_load_cl_config (ClConfig.cl_config c)) x) =
              trace x ++ match ClConfig.cl_config c with
                         | [] => []
                         | _ :: _ => [EvLoadClConfig (ClConfig.cl_config c)]
                         end).
    { intros x. destruct (ClConfig.cl_config c);
        cbn [List.length Nat.ltb Nat.leb when].
      - unfold skip. rewrite app_nil_r. reflexivity.
      - reflexivity. }
    rewrite Ecl, for_each_load_config_file_trace.
    unfold with_config at 1. rewrite for_each_load_config_file_trace.
    unfold config_find_user_files. rewrite seq_apply.
    cbn [on_config emit setattr trace conf].
    rewrite <- !app_assoc. reflexivity. }
  rewrite E2 in E3. unfold w3 in E3 at 1.
  cbn [mqc_trigger with_config emit trace] in E3. rewrite E1 in E3.
  exists (EvLoadDefaults :: e1
          ++ EvHook "before_config" (conf w2)
          :: (EvFindUserFiles
              :: map (fun path => EvLoadConfigFile path None) explicit
              ++ map (fun path => EvLoadConfigFile path (Some false))
                     (ClConfig.config_files c)
              ++ match ClConfig.cl_config c with
                 | [] => []
                 | _ :: _ => [EvLoadClConfig (ClConfig.cl_config c)]
                 end)
          ++ e3).
  split.
  - rewrite E3. rewrite <- !app_assoc. reflexivity.
  - assert (M : forall x l,
              filter is_config_loading
                     (map (fun path => EvLoadConfigFile path x) l) =
              map (fun path => EvLoadConfigFile path x) l).
    { intros x l. apply filter_all, Forall_forall. intros e He.
      apply in_map_iff in He. destruct He as (p & <- & _). reflexivity. }
    cbn [filter is_config_loading].
    rewrite filter_app, (filter_none _ F1).
    cbn [app filter is_config_loading].
    rewrite !filter_app, !M, (filter_none _ F3), app_nil_r.
    destruct (ClConfig.cl_config c); reflexivity.
Qed.

End UpdateConfig.

(** ** The statements above on concrete runs *)

(** [update_config] and [reload_config] with the example collaborators. *)
Notation "'ex_update_config'" :=
  (update_config ex_defaults ex_find_user_files ex_load_config_file
                 ex_load_cl_config ex_realpath ex_sys_version).

Notation "'ex_reload_config'" :=
  (reload_config ex_defaults ex_find_user_files ex_load_config_file
                 ex_load_cl_config ex_sys_version).

(** What the example run leaves behind. *)
Example ex_run_depth :
  let w' := world_of (ex_update_config [PosPath "data"] (Some ex_cfg_depth)
                                       false None ex_world) in
  config.get config.title (conf w') = Some "Run 7" /\
  config.get config.analysis_dir (conf w') = [PosPath "data"] /\
  config.get config.export_plot_formats (conf w') = ["pdf"; "svg"; "png"] /\
  config.get config.fn_ignore_files (conf w') = ["*.bak"; "*.tmp"] /\
  List.length (trace w') = 12.
Proof. vm_compute. repeat split. Qed.

(** C1: explicit falsy [make_pdf] and [filename] are skipped, an unset
    [prepend_dirs] is overwritten on behalf of [dirs_depth], and an explicit
    [quiet] is applied before the config file that resets it. *)
Lemma falsy_and_unset_fields_counterexample :
  let c := ex_cfg_falsy in
  let r := ex_update_config [] (Some c) false None ex_world in
  let loaded := ex_reload_config c false None ex_world in
  r = Ok (world_of r) /\
  (ClConfig.make_pdf c = Some false /\
   config.get config.make_pdf (conf (world_of r)) = true) /\
  (ClConfig.filename c = Some EmptyString /\
   config.get config.filename (conf (world_of r)) = Some "qc.html") /\
  (ClConfig.prepend_dirs c = None /\
   config.get config.prepend_dirs (conf loaded) = false /\
   config.get config.prepend_dirs (conf (world_of r)) = true) /\
  (ClConfig.quiet c = Some true /\
   config.get config.quiet (conf (world_of r)) = false).
Proof. vm_compute. repeat split. Qed.

(** C1 on the example run. *)
Lemma override_fields_applied_witness :
  let c := effective_cfg [PosPath "data"] (Some ex_cfg_depth) in
  let r := ex_update_config [PosPath "data"] (Some ex_cfg_depth)
                            false None ex_world in
  let w' := world_of r in
  let loaded := ex_reload_config c false None ex_world in
  r = Ok w' /\
  (forall f : opt_field,
     overridden f c (conf w') = false ->
     if applied_early f
     then config.get (target f)
            (conf (reset_verbosity ex_defaults c ex_world)) =
          match assigned ex_realpath f c with
          | Some v => v
          | None => config.get (target f) ex_defaults
          end
     else config.get (target f) (conf w') =
          match assigned ex_realpath f c with
          | Some v => v
          | None => config.get (target f) (conf loaded)
          end) /\
  (ClConfig.make_pdf c = Some true ->
   config.get config.make_pdf (conf w') = true) /\
  (ClConfig.make_pdf c = None ->
   config.get config.make_pdf (conf w') =
   config.get config.make_pdf (conf loaded)) /\
  (forall s, ClConfig.filename c = Some s -> s <> EmptyString ->
             config.get config.filename (conf w') = Some s) /\
  (ClConfig.filename c = None ->
   config.get config.filename (conf w') =
   config.get config.filename (conf loaded)).
Proof.
  cbv zeta.
  assert (H : ex_update_config [PosPath "data"] (Some ex_cfg_depth)
                               false None ex_world =
              Ok (world_of (ex_update_config [PosPath "data"]
                              (Some ex_cfg_depth) false None ex_world)))
    by (vm_compute; reflexivity).
  split; [exact H | ].
  exact (@override_fields_applied
           ex_defaults ex_find_user_files ex_load_config_file
           ex_load_cl_config ex_realpath ex_sys_version
           [PosPath "data"] (Some ex_cfg_depth) false None ex_world _ H).
Defined.

(** C2 on two runs: two directories, then one. *)
Lemma file_list_error_iff_witness :
  (exists e w',
     ex_update_config [PosPath "a.txt"; PosPath "b.txt"] (Some ex_cfg_simple)
                      false None ex_world = Raise e w') /\
  (exists w',
     ex_update_config [PosPath "a.txt"] (Some ex_cfg_simple)
                      false None ex_world = Ok w' /\
     config.get config.file_list (conf w') = true).
Proof.
  split.
  - pose proof (@file_list_error_iff
                  ex_defaults ex_find_user_files ex_load_config_file
                  ex_load_cl_config ex_realpath ex_sys_version
                  [PosPath "a.txt"; PosPath "b.txt"] (Some ex_cfg_simple)
                  false None ex_world) as H.
    cbv zeta in H. destruct H as [[_ H] _]. apply H.
    split; [discriminate | simpl; lia].
  - pose proof (@file_list_error_iff
                  ex_defaults ex_find_user_files ex_load_config_file
                  ex_load_cl_config ex_realpath ex_sys_version
                  [PosPath "a.txt"] (Some ex_cfg_simple)
                  false None ex_world) as H.
    cbv zeta in H. destruct H as (_ & _ & H & _).
    apply H; reflexivity.
Defined.

(** C4 on a run with [template="simple"]. *)
Lemma simple_template_forces_flat_plots_witness :
  let w' := world_of (ex_update_config [PosPath "a.txt"] (Some ex_cfg_simple)
                                       false None ex_world) in
  config.get config.template (conf w') = Some "simple" /\
  config.get config.plots_force_flat (conf w') = true /\
  config.get config.simple_output (conf w') = true.
Proof.
  cbv zeta.
  assert (H : config.get config.template
                (conf (world_of (ex_update_config [PosPath "a.txt"]
                                   (Some ex_cfg_simple) false None ex_world)))
              = Some "simple") by (vm_compute; reflexivity).
  split; [exact H | ].
  exact (@simple_template_forces_flat_plots
           ex_defaults ex_find_user_files ex_load_config_file
           ex_load_cl_config ex_realpath ex_sys_version
           [PosPath "a.txt"] (Some ex_cfg_simple) false None ex_world H).
Defined.

(** C5: [ai_summary=True, ai_summary_full=False] ends with [ai_summary]
    false. *)
Lemma ai_summary_full_false_counterexample :
  let c := ex_cfg_ai_off in
  let w' := world_of (ex_update_config [] (Some c) false None ex_world) in
  ClConfig.ai_summary_full c = Some false /\
  ClConfig.ai_summary c = Some true /\
  config.get config.ai_summary (conf w') = false.
Proof. vm_compute. repeat split. Qed.

(** C5 on a run with [ai_summary_full=True]. *)
Lemma ai_summary_full_sets_ai_summary_witness :
  let w' := world_of (ex_update_config [] (Some ex_cfg_full)
                                       false None ex_world) in
  ClConfig.ai_summary_full (effective_cfg [] (Some ex_cfg_full)) = Some true /\
  config.get config.ai_summary (conf w') = true /\
  config.get config.ai_summary_full (conf w') = true.
Proof.
  cbv zeta. split; [reflexivity | ].
  exact (@ai_summary_full_sets_ai_summary
           ex_defaults ex_find_user_files ex_load_config_file
           ex_load_cl_config ex_realpath ex_sys_version
           [] (Some ex_cfg_full) false None ex_world true eq_refl).
Defined.

(** C6: [profile_runtime=True, profile_memory=False] ends with
    [profile_runtime] false. *)
Lemma profile_memory_false_counterexample :
  let c := ex_cfg_profile_off in
  let w' := world_of (ex_update_config [] (Some c) false None ex_world) in
  ClConfig.profile_memory c = Some false /\
  ClConfig.profile_runtime c = Some true /\
  config.get config.profile_runtime (conf w') = false.
Proof. vm_compute. repeat split. Qed.

(** C6 on a run with [profile_memory=True]. *)
Lemma profile_memory_sets_profile_runtime_witness :
  let w' := world_of (ex_update_config [] (Some ex_cfg_full)
                                       false None ex_world) in
  ClConfig.profile_memory (effective_cfg [] (Some ex_cfg_full)) = Some true /\
  config.get config.profile_runtime (conf w') = true /\
  config.get config.profile_memory (conf w') = true.
Proof.
  cbv zeta. split; [reflexivity | ].
  exact (@profile_memory_sets_profile_runtime
           ex_defaults ex_find_user_files ex_load_config_file
           ex_load_cl_config ex_realpath ex_sys_version
           [] (Some ex_cfg_full) false None ex_world true eq_refl).
Defined.

(** C7 on the example run: ["*.bak"] then ["*.tmp"]. *)
Lemma ignore_lists_extended_witness :
  let c := effective_cfg [PosPath "data"] (Some ex_cfg_depth) in
  let r := ex_update_config [PosPath "data"] (Some ex_cfg_depth)
                            false None ex_world in
  let w0 := ex_reload_config c false None ex_world in
  r = Ok (world_of r) /\
  config.get config.fn_ignore_files (conf w0) = ["*.bak"] /\
  ClConfig.ignore c = ["*.tmp"] /\
  config.get config.fn_ignore_files (conf (world_of r)) =
    config.get config.fn_ignore_files (conf w0) ++ ClConfig.ignore c /\
  config.get config.fn_ignore_dirs (conf (world_of r)) =
    config.get config.fn_ignore_dirs (conf w0) ++ ClConfig.ignore c /\
  config.get config.fn_ignore_paths (conf (world_of r)) =
    config.get config.fn_ignore_paths (conf w0) ++ ClConfig.ignore c.
Proof.
  cbv zeta.
  assert (H : ex_update_config [PosPath "data"] (Some ex_cfg_depth)
                               false None ex_world =
              Ok (world_of (ex_update_config [PosPath "data"]
                              (Some ex_cfg_depth) false None ex_world)))
    by (vm_compute; reflexivity).
  split; [exact H | ].
  split; [vm_compute; reflexivity | ].
  split; [reflexivity | ].
  exact (@ignore_lists_extended
           ex_defaults ex_find_user_files ex_load_config_file
           ex_load_cl_config ex_realpath ex_sys_version
           [PosPath "data"] (Some ex_cfg_depth) false None ex_world _ H).
Defined.

(** C8 on the example run, made twice. *)
Lemma png_appended_once_witness :
  let run := ex_update_config [PosPath "data"] (Some ex_cfg_depth)
                              false None in
  let w1 := world_of (run ex_world) in
  let w2 := world_of (run w1) in
  count_occ string_dec
            (config.get config.export_plot_formats (conf w1)) "png" = 1 /\
  count_occ string_dec
            (config.get config.export_plot_formats (conf w2)) "png" = 1.
Proof.
  cbv zeta.
  pose proof (@png_appended_once
                ex_defaults ex_find_user_files ex_load_config_file
                ex_load_cl_config ex_realpath ex_sys_version
                [PosPath "data"] (Some ex_cfg_depth) false None
                [PosPath "data"] (Some ex_cfg_depth) false None ex_world)
    as H.
  cbv zeta in H. destruct H as (H1 & H2 & _). split.
  - apply H1; [vm_compute; reflexivity | ].
    vm_compute. intros [E | [E | []]]; discriminate E.
  - apply H2; [vm_compute; reflexivity | ].
    vm_compute. intros [E | [E | []]]; discriminate E.
Defined.

(** C10 on the example run: [prepend_dirs=False] with [dirs_depth=2]. *)
Lemma dirs_depth_forces_prepend_dirs_witness :
  let w' := world_of (ex_update_config [PosPath "data"] (Some ex_cfg_depth)
                                       false None ex_world) in
  ClConfig.dirs_depth (effective_cfg [PosPath "data"] (Some ex_cfg_depth))
    = Some 2%Z /\
  ClConfig.prepend_dirs ex_cfg_depth = Some false /\
  config.get config.prepend_dirs (conf w') = true /\
  config.get config.prepend_dirs_depth (conf w') = 2%Z.
Proof.
  cbv zeta. split; [reflexivity | split; [reflexivity | ]].
  exact (@dirs_depth_forces_prepend_dirs
           ex_defaults ex_find_user_files ex_load_config_file
           ex_load_cl_config ex_realpath ex_sys_version
           [PosPath "data"] (Some ex_cfg_depth) false None ex_world
           2%Z eq_refl).
Defined.

(** ** Further statements on concrete runs *)

Notation "'ex_update_config_lists'" :=
  (update_config ex_defaults_lists ex_find_user_files ex_load_config_file
                 ex_load_cl_config ex_realpath ex_sys_version).

Notation "'ex_reload_config_lists'" :=
  (reload_config ex_defaults_lists ex_find_user_files ex_load_config_file
                 ex_load_cl_config ex_sys_version).

(** [strict=True] reaches [config.lint]. *)
Lemma strict_mirrored_into_lint_witness :
  let w' := world_of (ex_update_config_lists [] (Some ex_cfg_lists)
                                             false None ex_world) in
  ClConfig.strict (effective_cfg [] (Some ex_cfg_lists)) = Some true /\
  config.get config.strict (conf w') = true /\
  config.get config.lint (conf w') = true.
Proof.
  cbv zeta. split; [reflexivity | ].
  exact (@strict_mirrored_into_lint
           ex_defaults_lists ex_find_user_files ex_load_config_file
           ex_load_cl_config ex_realpath ex_sys_version
           [] (Some ex_cfg_lists) false None ex_world true eq_refl).
Defined.

(** [make_pdf=True] with [template="custom"] and [plots_force_flat=False]. *)
Lemma make_pdf_forces_simple_template_witness :
  let c := effective_cfg [] (Some ex_cfg_lists) in
  let w' := world_of (ex_update_config_lists [] (Some ex_cfg_lists)
                                             false None ex_world) in
  ClConfig.make_pdf c = Some true /\
  ClConfig.template c = Some "custom" /\
  ClConfig.plots_force_flat c = Some false /\
  config.get config.make_pdf (conf w') = true /\
  config.get config.template (conf w') = Some "simple" /\
  config.get config.plots_force_flat (conf w') = true /\
  config.get config.simple_output (conf w') = true.
Proof.
  cbv zeta. split; [reflexivity | split; [reflexivity | ]].
  split; [reflexivity | ].
  exact (@make_pdf_forces_simple_template
           ex_defaults_lists ex_find_user_files ex_load_config_file
           ex_load_cl_config ex_realpath ex_sys_version
           [] (Some ex_cfg_lists) false None ex_world eq_refl).
Defined.

(** ["blank"] then ["neg*"]. *)
Lemma sample_name_lists_extended_witness :
  let c := effective_cfg [] (Some ex_cfg_lists) in
  let r := ex_update_config_lists [] (Some ex_cfg_lists)
                                  false None ex_world in
  let loaded := ex_reload_config_lists c false None ex_world in
  r = Ok (world_of r) /\
  config.get config.sample_names_ignore (conf loaded) = ["blank"] /\
  ClConfig.ignore_samples c = ["neg*"] /\
  config.get config.sample_names_ignore (conf (world_of r)) =
    config.get config.sample_names_ignore (conf loaded)
    ++ ClConfig.ignore_samples c /\
  config.get config.sample_names_only_include (conf (world_of r)) =
    config.get config.sample_names_only_include (conf loaded)
    ++ ClConfig.only_samples c.
Proof.
  cbv zeta.
  assert (H : ex_update_config_lists [] (Some ex_cfg_lists)
                                     false None ex_world =
              Ok (world_of (ex_update_config_lists [] (Some ex_cfg_lists)
                                                   false None ex_world)))
    by (vm_compute; reflexivity).
  split; [exact H | ].
  split; [vm_compute; reflexivity | ].
  split; [reflexivity | ].
  exact (@sample_name_lists_extended
           ex_defaults_lists ex_find_user_files ex_load_config_file
           ex_load_cl_config ex_realpath ex_sys_version
           [] (Some ex_cfg_lists) false None ex_world _ H).
Defined.

(** The passthrough options replace [config.kwargs]. *)
Lemma unknown_options_plugged_in_witness :
  let c := effective_cfg [] (Some ex_cfg_lists) in
  let r := ex_update_config_lists [] (Some ex_cfg_lists)
                                  false None ex_world in
  let loaded := ex_reload_config_lists c false None ex_world in
  r = Ok (world_of r) /\
  config.get config.kwargs (conf (world_of r)) =
  match ClConfig.unknown_options c with
  | Some (kv :: d) => kv :: d
  | _ => config.get config.kwargs (conf loaded)
  end.
Proof.
  cbv zeta.
  assert (H : ex_update_config_lists [] (Some ex_cfg_lists)
                                     false None ex_world =
              Ok (world_of (ex_update_config_lists [] (Some ex_cfg_lists)
                                                   false None ex_world)))
    by (vm_compute; reflexivity).
  split; [exact H | ].
  exact (@unknown_options_plugged_in
           ex_defaults_lists ex_find_user_files ex_load_config_file
           ex_load_cl_config ex_realpath ex_sys_version
           [] (Some ex_cfg_lists) false None ex_world _ H).
Defined.

(** A bare name and a dictionary in [module_order]. *)
Lemma report_module_lists_normalised_witness :
  let c := effective_cfg [] (Some ex_cfg_lists) in
  let r := ex_update_config_lists [] (Some ex_cfg_lists)
                                  false None ex_world in
  let w' := world_of r in
  let loaded := ex_reload_config_lists c false None ex_world in
  r = Ok w' /\
  report_top_modules w' =
    map prep_module (config.get config.top_modules (conf loaded)) /\
  report_module_order w' =
    map prep_module
        (match ClConfig.module_order c with
         | [] => config.get config.module_order (conf loaded)
         | _ :: _ => ClConfig.module_order c
         end) /\
  report_top_modules w' =
    map prep_module (config.get config.top_modules (conf w')) /\
  report_module_order w' =
    map prep_module (config.get config.module_order (conf w')).
Proof.
  cbv zeta.
  assert (H : ex_update_config_lists [] (Some ex_cfg_lists)
                                     false None ex_world =
              Ok (world_of (ex_update_config_lists [] (Some ex_cfg_lists)
                                                   false None ex_world)))
    by (vm_compute; reflexivity).
  split; [exact H | ].
  exact (@report_module_lists_normalised
           ex_defaults_lists ex_find_user_files ex_load_config_file
           ex_load_cl_config ex_realpath ex_sys_version
           [] (Some ex_cfg_lists) false None ex_world _ H).
Defined.

(** The override object passed positionally, with one path. *)
Lemma positional_cfg_counts_as_analysis_dir_witness :
  ClConfig.file_list ex_cfg_simple <> None /\
  exists w',
    ex_update_config [PosCfg ex_cfg_simple; PosPath "a.txt"] None
                     false None ex_world =
    Raise (RunError file_list_message) w'.
Proof.
  split; [discriminate | ].
  pose proof (@positional_cfg_counts_as_analysis_dir
                ex_defaults ex_find_user_files ex_load_config_file
                ex_load_cl_config ex_realpath ex_sys_version
                ex_cfg_simple [PosPath "a.txt"] false None ex_world) as H.
  cbv zeta in H. destruct H as (_ & _ & H).
  apply H; discriminate.
Defined.

(** Two paths with [file_list=True] and [template="simple"]. *)
Lemma raise_skips_later_statements_witness :
  let ad := [PosPath "a.txt"; PosPath "b.txt"] in
  let c := effective_cfg ad (Some ex_cfg_simple) in
  let r := ex_update_config ad (Some ex_cfg_simple) false None ex_world in
  let loaded := ex_reload_config c false None ex_world in
  r = Raise (RunError file_list_message) (world_of r) /\
  (forall a,
     In a [config.file_list; config.fn_ignore_files; config.fn_ignore_dirs;
           config.fn_ignore_paths; config.sample_names_ignore;
           config.sample_names_only_include; config.kwargs] ->
     config.get a (conf (world_of r)) = config.get a (conf loaded)) /\
  report_top_modules (world_of r) = report_top_modules ex_world /\
  report_module_order (world_of r) = report_module_order ex_world.
Proof.
  cbv zeta.
  assert (H : ex_update_config [PosPath "a.txt"; PosPath "b.txt"]
                               (Some ex_cfg_simple) false None ex_world =
              Raise (RunError file_list_message)
                    (world_of (ex_update_config
                                 [PosPath "a.txt"; PosPath "b.txt"]
                                 (Some ex_cfg_simple) false None ex_world)))
    by (vm_compute; reflexivity).
  split; [exact H | ].
  exact (@raise_skips_later_statements
           ex_defaults ex_find_user_files ex_load_config_file
           ex_load_cl_config ex_realpath ex_sys_version
           [PosPath "a.txt"; PosPath "b.txt"] (Some ex_cfg_simple)
           false None ex_world _ _ H).
Defined.

(** The same run: the template asked for has been applied. *)
Lemma raise_keeps_applied_fields_witness :
  let ad := [PosPath "a.txt"; PosPath "b.txt"] in
  let r := ex_update_config ad (Some ex_cfg_simple) false None ex_world in
  r = Raise (RunError file_list_message) (world_of r) /\
  config.get config.template (conf (world_of r)) = Some "simple".
Proof.
  cbv zeta.
  assert (H : ex_update_config [PosPath "a.txt"; PosPath "b.txt"]
                               (Some ex_cfg_simple) false None ex_world =
              Raise (RunError file_list_message)
                    (world_of (ex_update_config
                                 [PosPath "a.txt"; PosPath "b.txt"]
                                 (Some ex_cfg_simple) false None ex_world)))
    by (vm_compute; reflexivity).
  split; [exact H | ].
  exact (@raise_keeps_applied_fields
           ex_defaults ex_find_user_files ex_load_config_file
           ex_load_cl_config ex_realpath ex_sys_version
           [PosPath "a.txt"; PosPath "b.txt"] (Some ex_cfg_simple)
           false None ex_world _ _ F_template H
           eq_refl ltac:(discriminate) eq_refl).
Defined.

(** No arguments: the ignore list of the defaults is untouched. *)
Lemma empty_override_keeps_loaded_config_witness :
  exists w',
    ex_update_config [] None false None ex_world = Ok w' /\
    config.get config.fn_ignore_files (conf w') =
    config.get config.fn_ignore_files
      (conf (ex_reload_config ClConfig.default false None ex_world)).
Proof.
  apply (@empty_override_keeps_loaded_config
           ex_defaults ex_find_user_files ex_load_config_file
           ex_load_cl_config ex_realpath ex_sys_version
           false None ex_world config.fn_ignore_files); discriminate.
Defined.

(** [prepend_dirs=False] and [fn_clean_sample_names=True] both log. *)
Lemma info_messages_ignore_the_value_witness :
  let c := effective_cfg [] (Some ex_cfg_lists) in
  let w' := world_of (ex_update_config_lists [] (Some ex_cfg_lists)
                                             false None ex_world) in
  ClConfig.prepend_dirs c = Some false /\
  ClConfig.fn_clean_sample_names c = Some true /\
  (exists evs,
     trace w' = trace ex_world ++ evs /\
     In (EvLog INFO "Prepending directory to sample names") evs) /\
  (exists evs,
     trace w' = trace ex_world ++ evs /\
     In (EvLog INFO "Not cleaning sample names") evs).
Proof.
  cbv zeta. split; [reflexivity | split; [reflexivity | ]].
  split.
  - apply (proj1 (@info_messages_ignore_the_value
                    ex_defaults_lists ex_find_user_files ex_load_config_file
                    ex_load_cl_config ex_realpath ex_sys_version
                    [] (Some ex_cfg_lists) false None ex_world false)).
    reflexivity.
  - apply (proj2 (@info_messages_ignore_the_value
                    ex_defaults_lists ex_find_user_files ex_load_config_file
                    ex_load_cl_config ex_realpath ex_sys_version
                    [] (Some ex_cfg_lists) false None ex_world true)).
    reflexivity.
Defined.

(** No [replace_names], no [sample_names], no inline config. *)
Lemma auxiliary_loaders_skipped_when_empty_witness :
  let w' := world_of (ex_update_config_lists [] (Some ex_cfg_lists)
                                             false None ex_world) in
  (exists evs, trace w' = trace ex_world ++ evs /\
               Forall (fun e => is_load_replace_names e = false) evs) /\
  (exists evs, trace w' = trace ex_world ++ evs /\
               Forall (fun e => is_load_sample_names e = false) evs) /\
  (exists evs, trace w' = trace ex_world ++ evs /\
               Forall (fun e => is_load_cl_config e = false) evs).
Proof.
  cbv zeta.
  pose proof (@auxiliary_loaders_skipped_when_empty
                ex_defaults_lists ex_find_user_files ex_load_config_file
                ex_load_cl_config ex_realpath ex_sys_version
                [] (Some ex_cfg_lists) false None ex_world) as H.
  cbv zeta in H. destruct H as (H1 & H2 & H3).
  split; [apply H1; reflexivity | split].
  - apply H2; reflexivity.
  - apply H3; reflexivity.
Defined.

(** [replace_names="names.tsv"]. *)
Lemma auxiliary_loaders_called_with_path_witness :
  let w' := world_of (ex_update_config [] (Some ex_cfg_names)
                                       false None ex_world) in
  "names.tsv" <> EmptyString /\
  ClConfig.replace_names (effective_cfg [] (Some ex_cfg_names))
    = Some "names.tsv" /\
  exists evs, trace w' = trace ex_world ++ evs /\
              In (EvLoadReplaceNames "names.tsv") evs.
Proof.
  cbv zeta. split; [discriminate | split; [reflexivity | ]].
  apply (proj1 (@auxiliary_loaders_called_with_path
                  ex_defaults ex_find_user_files ex_load_config_file
                  ex_load_cl_config ex_realpath ex_sys_version
                  [] (Some ex_cfg_names) false None ex_world "names.tsv"
                  ltac:(discriminate))).
  reflexivity.
Defined.

(** What the run with [ex_cfg_names] calls, and what the run with
    [ex_cfg_lists] leaves. *)
Example ex_run_names :
  let w' := world_of (ex_update_config [] (Some ex_cfg_names)
                                       false None ex_world) in
  filter is_loading (trace w') =
    [EvFindUserFiles;
     EvLoadConfigFile "lab.yaml" (Some false);
     EvLoadConfigFile "run.yaml" (Some false);
     EvLoadClConfig ["title: x"];
     EvLoadReplaceNames "names.tsv";
     EvLoadShowHide None].
Proof. vm_compute. reflexivity. Qed.

Example ex_run_lists :
  let w' := world_of (ex_update_config_lists [] (Some ex_cfg_lists)
                                             false None ex_world) in
  config.get config.fn_clean_exts (conf w') =
    [PStr ".gz"; PStr ".fastq"; PStr ".bam"] /\
  config.get config.custom_css_files (conf w') = ["base.css"; "lab.css"] /\
  config.get config.run_modules (conf w') = ["fastqc"] /\
  config.get config.sample_names_ignore (conf w') = ["blank"; "neg*"] /\
  config.get config.kwargs (conf w') = [("my_opt", PInt 1)] /\
  report_top_modules w' = [[("custom_content", PDict [])]] /\
  report_module_order w' =
    [[("fastqc", PDict [])];
     [("star", PDict [("path_filters", PStr "*.out")])]].
Proof. vm_compute. repeat split. Qed.
